(** * desk-control: the AOKE standing-desk driver of [desk.py]

    A shallow embedding of the parts of [desk.py] that carry logic: the
    command-packet codec [build_move_packet], the notification handler
    [Desk._on_height], the convergence loop [Desk.move_to] and the
    sit/stand loop [_auto]; and around them the filter of [scan], the
    lookups of [_get_config], the choice of the desk in [_setup] and the
    desk commands of [_cli].

    Conventions of the embedding.
    - Python [int] is [Z]; a [bytes] value built from integers is a [list Z]
      whose elements were checked to lie in [range(256)]; a notification
      payload is a [list byte]; a decoded [str] is a [string].
    - Python [float] is IEEE-754 binary64, that is [PrimFloat.float].
    - An exception is a value of [exn]; a computation that may raise returns
      a [result].
    - [time.monotonic()] is an integer number of milliseconds; the event loop
      and the radio are a [World] that the awaiting code steps explicitly. *)

From Stdlib Require Import ZArith List Bool Lia.
From Stdlib.Strings Require Import String Ascii Byte.
From Stdlib Require Import Floats Uint63.
Import ListNotations.

Open Scope Z_scope.

(** ** Exceptions and results *)

Inductive exn : Type :=
| ValueError
| OverflowError
| UnicodeDecodeError
| TimeoutError
| BleakError
| TimeoutExpired
| OSError.

(** [Diverged] is the answer of a loop model that ran out of fuel.
    [Desk.move_to] never produces it (see [move_to_returns]); [_auto] loops
    until it is stopped, so its fuel bounds the rounds that are simulated. *)
Inductive result (A : Type) : Type :=
| Return (a : A)
| Raise (e : exn)
| Diverged.

Arguments Return {A} a.
Arguments Raise {A} e.
Arguments Diverged {A}.

(** ** Packet codec *)

Definition MIN_HEIGHT_MM : Z := 650.
Definition MAX_HEIGHT_MM : Z := 1300.

(** [max(MIN_HEIGHT_MM, min(MAX_HEIGHT_MM, target_mm))] *)
Definition clamp_mm (target_mm : Z) : Z :=
  Z.max MIN_HEIGHT_MM (Z.min MAX_HEIGHT_MM target_mm).

(** [chk = 0; for b in bs: chk ^= b] *)
Definition xor_fold (bs : list Z) : Z :=
  fold_left Z.lxor bs 0.

(** [bytes(body)]: raises [ValueError] unless every element is in
    [range(256)]. *)
Definition py_bytes (body : list Z) : result (list Z) :=
  if forallb (fun b => (0 <=? b) && (b <? 256)) body
  then Return body
  else Raise ValueError.

Definition build_move_packet (target_mm : Z) : result (list Z) :=
  let target_mm := clamp_mm target_mm in
  let hi := Z.land (Z.shiftr target_mm 8) 0xFF in
  let lo := Z.land target_mm 0xFF in
  let body := [0xA6; 0xA8; 0x01; hi; lo; 0x00; 0x00] in
  let chk := xor_fold (skipn 2 body) in
  let body := body ++ [chk] in
  let body := body ++ [0xFF] in
  py_bytes body.

(** The frame of the protocol description, for a height already in range. *)
Definition frame (h : Z) : list Z :=
  [0xA6; 0xA8; 0x01; h / 256; h mod 256; 0x00; 0x00;
   xor_fold [0x01; h / 256; h mod 256; 0x00; 0x00]; 0xFF].

(** ** Telemetry and the height tracker *)

(** [asyncio.Event]: [_value] is the flag that [is_set()] reads. [sets] is a
    ghost counter of the calls of [set()], kept to state how often the signal
    was fired; no modelled code reads it. *)
Record Event : Type := { _value : bool; sets : nat }.

Definition Event_new : Event := {| _value := false; sets := 0 |}.
Definition Event_set (e : Event) : Event := {| _value := true; sets := S (sets e) |}.
Definition Event_clear (e : Event) : Event := {| _value := false; sets := sets e |}.
Definition is_set (e : Event) : bool := _value e.

(** The fields of [Desk] other than the link [_client], which lives in the
    [World] below. [None] is Python's [None]. *)
Record Desk : Type := {
  _height_mm : option Z;
  _height_updated : Event
}.

(** [Desk.__init__] *)
Definition Desk_init : Desk :=
  {| _height_mm := None; _height_updated := Event_new |}.

(** [bytes(data).decode("ascii")]: every byte must be below 128. *)
Definition decode_ascii (data : list byte) : result string :=
  if forallb (fun b => (Byte.to_N b <? 128)%N) data
  then Return (string_of_list_byte data)
  else Raise UnicodeDecodeError.

Definition is_decimal (c : ascii) : bool :=
  ((48 <=? N_of_ascii c) && (N_of_ascii c <=? 57))%N.

Fixpoint all_decimal (s : string) : bool :=
  match s with
  | EmptyString => true
  | String c s' => is_decimal c && all_decimal s'
  end.

(** [s.isdigit()] on a string that came out of the ASCII codec: at least one
    character, and every character one of 0..9 (the other characters for
    which Python's [isdigit] holds are not ASCII). *)
Definition isdigit (s : string) : bool :=
  match s with
  | EmptyString => false
  | _ => all_decimal s
  end.

Fixpoint decimal_value (acc : Z) (s : string) : Z :=
  match s with
  | EmptyString => acc
  | String c s' => decimal_value (10 * acc + (Z.of_N (N_of_ascii c) - 48)) s'
  end.

(** [int(s)] in base 10. The handler calls it on decimal digits only; the
    signed, padded or underscored numerals that Python also reads never reach
    it, and are answered here with the [ValueError] of a non-numeral. *)
Definition int_of_str (s : string) : result Z :=
  if isdigit s then Return (decimal_value 0 s) else Raise ValueError.

(** The [try] block of [_on_height]. No statement that can raise comes after
    an assignment, so a raised exception leaves [self] as it was. *)
Definition _on_height_try (self : Desk) (data : list byte) : result Desk :=
  match decode_ascii data with
  | Return s =>
      if (String.length s =? 4)%nat && isdigit s then
        match int_of_str s with
        | Return n =>
            Return {| _height_mm := Some n;
                      _height_updated := Event_set (_height_updated self) |}
        | Raise e => Raise e
        | Diverged => Diverged
        end
      else Return self
  | Raise e => Raise e
  | Diverged => Diverged
  end.

(** [Desk._on_height]: [except Exception: pass]. *)
Definition _on_height (self : Desk) (data : list byte) : Desk :=
  match _on_height_try self data with
  | Return self' => self'
  | _ => self
  end.

(** The value the handler stores for a payload, if it stores one: what a
    fresh tracker holds after handling the payload. *)
Definition reading (data : list byte) : option Z :=
  _height_mm (_on_height Desk_init data).

(** The telemetry decoder in the words of the specification: ASCII-decode,
    require exactly four characters, all decimal digits, and parse them in
    base ten. *)
Definition decode_spec (data : list byte) : option Z :=
  match map Byte.to_N data with
  | [c3; c2; c1; c0] =>
      if forallb (fun c => (48 <=? c) && (c <=? 57))%N [c3; c2; c1; c0]
      then Some (Z.of_N (1000 * (c3 - 48) + 100 * (c2 - 48) + 10 * (c1 - 48) + (c0 - 48)))
      else None
  | _ => None
  end.

(** [Desk.height_mm] *)
Definition height_mm (self : Desk) : option Z := _height_mm self.

(** Python's conversion of an [int] to a [float], for the integers below
    [2^63] in absolute value (it is exact below [2^53]; a tracked height is
    at most 9999). *)
Definition float_of_int (z : Z) : float :=
  if z <? 0 then PrimFloat.opp (PrimFloat.of_uint63 (Uint63.of_Z (- z)))
  else PrimFloat.of_uint63 (Uint63.of_Z z).

(** [Desk.height_cm] *)
Definition height_cm (self : Desk) : option float :=
  match _height_mm self with
  | Some mm => Some (float_of_int mm / 10)%float
  | None => None
  end.

(** [int(x)] of a float: truncation toward zero; [ValueError] on a NaN and
    [OverflowError] on an infinity. *)
Definition int_of_float (x : float) : result Z :=
  match Prim2SF x with
  | S754_zero _ => Return 0
  | S754_finite s m e =>
      let v := if 0 <=? e then Z.pos m * 2 ^ e else Z.pos m / 2 ^ (- e) in
      Return (if s then - v else v)
  | S754_infinity _ => Raise OverflowError
  | S754_nan => Raise ValueError
  end.

(** A run of [osascript] under [subprocess.run]. Either it cannot be
    started and [subprocess.run] raises at once, as it does with the
    [FileNotFoundError] of a system that has no [osascript]; or it goes on
    for [open] milliseconds, and [skip] tells whether its output names the
    Skip button. *)
Inductive run : Type :=
| Failed (e : exn)
| Ran (skip : bool) (open : Z).

(** ** The world around the coroutines

    Everything the awaiting code cannot decide by itself. The clock counts
    milliseconds. [inbox] is the queue of notifications still to come, each
    with the time at which the radio hands it to the event loop; they are
    handled in queue order, a late one as soon as it is reached. [stop_at] is
    the time at which SIGINT or SIGTERM is delivered, if it ever is.
    [dialogs] are the runs of [osascript] still to come, one for each call of
    [_notify]. [link_up] tells whether a write is acknowledged, [write_delay]
    how long the acknowledgement takes, and [sent] logs the acknowledged
    writes. Code runs in no time; the clock moves only while a coroutine is
    suspended or a subprocess is run. *)
Record World : Type := {
  clock : Z;
  inbox : list (Z * list byte);
  stop_at : option Z;
  dialogs : list run;
  link_up : bool;
  write_delay : Z;
  sent : list (list Z);
  desk : Desk
}.

(** A computation on the world that may raise. *)
Definition M (A : Type) : Type := World -> result A * World.

Definition ret {A : Type} (a : A) : M A := fun w => (Return a, w).

Definition bind {A B : Type} (c : M A) (k : A -> M B) : M B :=
  fun w =>
    match c w with
    | (Return a, w') => k a w'
    | (Raise e, w') => (Raise e, w')
    | (Diverged, w') => (Diverged, w')
    end.

Notation "x <- c ;; k" := (bind c (fun x => k))
  (at level 61, c at next level, right associativity).
Notation "c ;;; k" := (bind c (fun _ => k))
  (at level 61, right associativity).

(** A pure computation whose exception, if any, propagates. *)
Definition lift {A : Type} (r : result A) : M A := fun w => (r, w).

Definition seconds (s : Z) : Z := 1000 * s.

(** [time.monotonic()] *)
Definition monotonic : M Z := fun w => (Return (clock w), w).

Definition set_desk (d : Desk) (w : World) : World :=
  {| clock := clock w; inbox := inbox w; stop_at := stop_at w;
     dialogs := dialogs w; link_up := link_up w; write_delay := write_delay w;
     sent := sent w; desk := d |}.

Definition set_time (t : Z) (q : list (Z * list byte)) (d : Desk) (w : World) : World :=
  {| clock := t; inbox := q; stop_at := stop_at w;
     dialogs := dialogs w; link_up := link_up w; write_delay := write_delay w;
     sent := sent w; desk := d |}.

(** The notifications that have arrived by time [t] reach the handler. *)
Fixpoint deliver_until (t : Z) (q : list (Z * list byte)) (d : Desk)
  : list (Z * list byte) * Desk :=
  match q with
  | (a, data) :: q' =>
      if a <=? t then deliver_until t q' (_on_height d data) else (q, d)
  | [] => ([], d)
  end.

(** The caller is suspended until time [t] (no time passes if [t] is not
    ahead); the event loop runs the handler meanwhile. *)
Definition sleep_until (t : Z) (w : World) : World :=
  let t' := Z.max (clock w) t in
  let (q, d) := deliver_until t' (inbox w) (desk w) in
  set_time t' q d w.

(** [await asyncio.sleep(d)] *)
Definition sleep (d : Z) : M unit :=
  fun w => (Return tt, sleep_until (clock w + d) w).

(** [stop.is_set()] for the event that the signal handlers of [_auto] set:
    nothing ever clears it, so it is set from the delivery of the signal on. *)
Definition stop_is_set (w : World) : bool :=
  match stop_at w with
  | Some s => s <=? clock w
  | None => false
  end.

(** [await self._client.write_gatt_char(WRITE_UUID, cmd, response=True)]:
    suspended until the acknowledgement or the failure is known. *)
Definition write_gatt_char (cmd : list Z) : M unit :=
  fun w =>
    let w' := sleep_until (clock w + write_delay w) w in
    if link_up w
    then (Return tt,
          {| clock := clock w'; inbox := inbox w'; stop_at := stop_at w';
             dialogs := dialogs w'; link_up := link_up w';
             write_delay := write_delay w'; sent := sent w' ++ [cmd];
             desk := desk w' |})
    else (Raise BleakError, w').

(** [self._height_updated.clear()] *)
Definition clear_height_updated : M unit :=
  fun w =>
    (Return tt,
     set_desk {| _height_mm := _height_mm (desk w);
                 _height_updated := Event_clear (_height_updated (desk w)) |} w).

(** The event loop while the caller waits for the update signal. The
    handler runs on each notification that arrives by [deadline]; one that is
    handled as the timeout fires still counts. Setting the signal only
    schedules the caller: before it resumes, the handler has also run on the
    notifications that had arrived by then, so the caller reads the latest
    height, not the one that woke it. The answer is whether the signal was
    set. *)
Fixpoint await_update (deadline : Z) (q : list (Z * list byte)) (now : Z) (d : Desk)
  : bool * (Z * list (Z * list byte) * Desk) :=
  match q with
  | (a, data) :: q' =>
      if a <=? deadline then
        let d' := _on_height d data in
        let now' := Z.max now a in
        if is_set (_height_updated d')
        then let (q'', d'') := deliver_until now' q' d' in (true, (now', q'', d''))
        else await_update deadline q' now' d'
      else (false, (Z.max now deadline, q, d))
  | [] => (false, (Z.max now deadline, [], d))
  end.

(** [await asyncio.wait_for(self._height_updated.wait(), timeout=timeout)].
    A wait on a signal that is set returns at once; [move_to] never asks for
    one, as it clears the signal first. Otherwise a timeout of zero or less
    raises at once. *)
Definition wait_for_height_updated (timeout : Z) : M unit :=
  fun w =>
    if is_set (_height_updated (desk w)) then (Return tt, w)
    else if timeout <=? 0 then (Raise TimeoutError, w)
    else
      match await_update (clock w + timeout) (inbox w) (clock w) (desk w) with
      | (true, (t, q, d)) => (Return tt, set_time t q d w)
      | (false, (t, q, d)) => (Raise TimeoutError, set_time t q d w)
      end.

(** [await asyncio.wait_for(stop.wait(), timeout=timeout)] *)
Definition wait_for_stop (timeout : Z) : M unit :=
  fun w =>
    if stop_is_set w then (Return tt, w)
    else if timeout <=? 0 then (Raise TimeoutError, w)
    else
      match stop_at w with
      | Some s =>
          if s <? clock w + timeout then (Return tt, sleep_until s w)
          else (Raise TimeoutError, sleep_until (clock w + timeout) w)
      | None => (Raise TimeoutError, sleep_until (clock w + timeout) w)
      end.

(** ** Move controller *)

(** The [while] loop of [Desk.move_to]. Each round that does not leave the
    loop has taken a notification from the queue, so [move_to] gives it one
    unit of fuel more than the queue is long. *)
Fixpoint move_loop (fuel : nat) (deadline target_mm tolerance_mm : Z) : M bool :=
  match fuel with
  | O => lift Diverged
  | S fuel' =>
      now <- monotonic ;;
      if now <? deadline then
        clear_height_updated ;;;
        now <- monotonic ;;
        fun w =>
          match wait_for_height_updated (deadline - now) w with
          | (Return _, w') =>
              match _height_mm (desk w') with
              | Some h =>
                  if Z.abs (h - target_mm) <=? tolerance_mm
                  then (Return true, w')
                  else move_loop fuel' deadline target_mm tolerance_mm w'
              | None => move_loop fuel' deadline target_mm tolerance_mm w'
              end
          | (Raise TimeoutError, w') => (Return false, w')
          | (Raise ValueError, w') => (Return false, w')
          | (Raise e, w') => (Raise e, w')
          | (Diverged, w') => (Diverged, w')
          end
      else ret false
  end.

(** [Desk.move_to] *)
Definition move_to (target_mm timeout tolerance_mm : Z) : M bool :=
  cmd <- lift (build_move_packet target_mm) ;;
  write_gatt_char cmd ;;;
  now <- monotonic ;;
  let deadline := now + timeout in
  fun w => move_loop (S (List.length (inbox w))) deadline target_mm tolerance_mm w.

(** The defaults of [move_to]: [timeout=30.0] and [tolerance_mm=10]. *)
Definition default_timeout : Z := seconds 30.
Definition default_tolerance_mm : Z := 10.

(** [Desk.move_to_cm] *)
Definition move_to_cm (target_cm : float) (timeout tolerance_mm : Z) : M bool :=
  target_mm <- lift (int_of_float (target_cm * 10)%float) ;;
  move_to target_mm timeout tolerance_mm.

(** ** Alternation scheduler *)

(** [connect]: a fresh [Desk] on the link, subscribed to the notifications,
    after [asyncio.sleep(0.5)]. The connection itself and the subscription
    belong to the transport. *)
Definition connect : M unit :=
  fun w => sleep 500 (set_desk Desk_init w).

(** The start of [_auto], from [next_is_stand = True] to the end of the
    [if h is not None] block. *)
Definition startup_next_is_stand (h : option float) (sit stand : float) : bool :=
  match h with
  | Some h =>
      if (abs (h - stand) <? 2)%float then false
      else if (2 <=? abs (h - sit))%float
           then (abs (h - sit) <? abs (h - stand))%float
           else true
  | None => true
  end.

(** [stand if next_is_stand else sit] *)
Definition target_of (next_is_stand : bool) (sit stand : float) : float :=
  if next_is_stand then stand else sit.

(** The world with its next run of [osascript] taken off [dialogs]. *)
Definition set_dialogs (ds : list run) (w : World) : World :=
  {| clock := clock w; inbox := inbox w; stop_at := stop_at w;
     dialogs := ds; link_up := link_up w;
     write_delay := write_delay w; sent := sent w; desk := desk w |}.

(** One run of [_notify] by itself: its outcome, how long it takes, and the
    world with that run of [osascript] taken off [dialogs]. With a countdown
    of zero it posts a desktop notification and answers [False]; nothing
    catches what [subprocess.run] raises there: the error of a run that
    cannot be started, or [TimeoutExpired] when the run outlasts the five
    seconds it is given. Otherwise it shows the dialog: the answer is whether
    Skip was pressed; a run that cannot be started, or that outlasts the
    limit of [countdown + 5] seconds, is answered [False] by the [except]
    clause. Where no run is recorded, the notification is posted at once and
    the dialog is left alone until it gives up, after [countdown] seconds. *)
Definition _notify_run (countdown : Z) (w : World) : result bool * Z * World :=
  match dialogs w with
  | Failed e :: ds =>
      if countdown =? 0 then (Raise e, 0, set_dialogs ds w)
      else (Return false, 0, set_dialogs ds w)
  | Ran skip open :: ds =>
      if countdown =? 0 then
        if open <=? seconds 5 then (Return false, open, set_dialogs ds w)
        else (Raise TimeoutExpired, seconds 5, set_dialogs ds w)
      else
        if open <=? seconds (countdown + 5)
        then (Return skip, open, set_dialogs ds w)
        else (Return false, seconds (countdown + 5), set_dialogs ds w)
  | [] => (Return false, if countdown =? 0 then 0 else seconds countdown, w)
  end.

(** [await asyncio.to_thread(_notify, ..., countdown=countdown)]: the run is
    in a thread, and the event loop goes on meanwhile. *)
Definition _notify (countdown : Z) : M bool :=
  fun w =>
    let '(r, t, w0) := _notify_run countdown w in
    (r, sleep_until (clock w + t) w0).

(** [_notify(...)] called from the coroutine itself: the event loop stands
    still for the time of the run, and the notifications that arrive
    meanwhile wait in the queue. *)
Definition _notify_blocking (countdown : Z) : M bool :=
  fun w =>
    let '(r, t, w0) := _notify_run countdown w in
    (r, set_time (Z.max (clock w) (clock w + t)) (inbox w0) (desk w0) w0).

(** How one pass through the body of the [while] loop of [_auto] ends: at its
    last statement or at a [continue], or at a [break]. *)
Inductive flow : Type := Again | Break.

(** The body of the [while] loop of [_auto]. The answer carries the value of
    [next_is_stand] at the end of the pass. *)
Definition auto_body (sit stand : float) (interval countdown : Z)
    (next_is_stand : bool) : M (flow * bool) :=
  fun w =>
    match wait_for_stop (seconds interval) w with
    | (Return _, w1) => (Return (Break, next_is_stand), w1)
    | (Raise TimeoutError, w1) =>
        (let target := target_of next_is_stand sit stand in
         skipped <- _notify countdown ;;
         fun w2 =>
           if stop_is_set w2 then (Return (Break, next_is_stand), w2)
           else if (skipped : bool) then (Return (Again, next_is_stand), w2)
           else
             (ok <- move_to_cm target default_timeout default_tolerance_mm ;;
              _notify_blocking 0 ;;;
              ret (Again, negb next_is_stand)) w2) w1
    | (Raise e, w1) => (Raise e, w1)
    | (Diverged, w1) => (Diverged, w1)
    end.

(** The [while not stop.is_set()] loop of [_auto], for at most [fuel]
    passes. The answer is [next_is_stand] when the loop is left. *)
Fixpoint auto_loop (fuel : nat) (sit stand : float) (interval countdown : Z)
    (next_is_stand : bool) : M bool :=
  match fuel with
  | O => lift Diverged
  | S fuel' =>
      fun w =>
        if stop_is_set w then (Return next_is_stand, w)
        else
          match auto_body sit stand interval countdown next_is_stand w with
          | (Return (Again, next_is_stand'), w') =>
              auto_loop fuel' sit stand interval countdown next_is_stand' w'
          | (Return (Break, next_is_stand'), w') => (Return next_is_stand', w')
          | (Raise e, w') => (Raise e, w')
          | (Diverged, w') => (Diverged, w')
          end
  end.

(** [_auto], from the connection to the final notification. *)
Definition _auto (fuel : nat) (sit stand : float) (interval countdown : Z) : M bool :=
  connect ;;;
  fun w =>
    let h := height_cm (desk w) in
    let next_is_stand := startup_next_is_stand h sit stand in
    (_notify_blocking 0 ;;;
     next_is_stand' <- auto_loop fuel sit stand interval countdown next_is_stand ;;
     _notify_blocking 0 ;;;
     ret next_is_stand') w.

(** ** Notions used to state the properties *)

(** The handler run on a sequence of payloads. *)
Definition run_handler (self : Desk) (ps : list (list byte)) : Desk :=
  fold_left _on_height ps self.

(** The last reading among the payloads, or [h0] if none yields one. *)
Definition last_reading (h0 : option Z) (ps : list (list byte)) : option Z :=
  fold_left
    (fun h data => match reading data with Some n => Some n | None => h end)
    ps h0.

(** How many of the payloads yield a reading. *)
Definition accepted_count (ps : list (list byte)) : nat :=
  List.length
    (filter (fun data => match reading data with Some _ => true | None => false end) ps).

(** The tracker after [clear()] of its signal. *)
Definition cleared (d : Desk) : Desk :=
  {| _height_mm := _height_mm d;
     _height_updated := Event_clear (_height_updated d) |}.

(** A tracked height, once known, is a number of four decimal digits. *)
Definition height_in_range (d : Desk) : Prop :=
  match _height_mm d with
  | Some h => 0 <= h <= 9999
  | None => True
  end.

(** From [w] to [w'] the clock did not go back, the environment's plans are
    the same, and the tracked height of [w'] is what the handler makes of the
    notifications [ps] that left the queue in between. *)
Definition passes (w w' : World) (ps : list (Z * list byte)) : Prop :=
  clock w <= clock w' /\
  stop_at w' = stop_at w /\
  link_up w' = link_up w /\
  write_delay w' = write_delay w /\
  inbox w = ps ++ inbox w' /\
  _height_mm (desk w') = last_reading (_height_mm (desk w)) (map snd ps).

(** The payload yields a reading within the tolerance of the target. *)
Definition in_tolerance (target_mm tolerance_mm : Z) (data : list byte) : bool :=
  match reading data with
  | Some h => Z.abs (h - target_mm) <=? tolerance_mm
  | None => false
  end.

(** The notifications at the front of the queue that arrive before the
    deadline: those a caller waiting until the deadline can be woken by. *)
Fixpoint window (deadline : Z) (q : list (Z * list byte)) : list (Z * list byte) :=
  match q with
  | (a, data) :: q' => if a <? deadline then (a, data) :: window deadline q' else []
  | [] => []
  end.

(** The height [h] is within the tolerance of the target. *)
Definition within (target_mm tolerance_mm h : Z) : bool :=
  Z.abs (h - target_mm) <=? tolerance_mm.

(** The heights that a caller who keeps waiting until [deadline] reads each
    time it resumes. While it waits ([seen] is [None]) the notifications that
    arrive by the deadline are handled, and the first to yield a reading
    wakes it; before it resumes ([seen] is the reading so far) the ones that
    have arrived by then are handled too, and the last reading is what it
    reads. It waits again only before the deadline. *)
Fixpoint observations (deadline : Z) (q : list (Z * list byte)) (now : Z)
    (seen : option Z) : list Z :=
  match q with
  | [] => match seen with Some h => [h] | None => [] end
  | (a, data) :: q' =>
      match seen with
      | Some h =>
          if a <=? now then
            observations deadline q' now
              (Some match reading data with Some r => r | None => h end)
          else
            h :: (if now <? deadline then
                    if a <=? deadline
                    then observations deadline q' (Z.max now a) (reading data)
                    else []
                  else [])
      | None =>
          if a <=? deadline
          then observations deadline q' (Z.max now a) (reading data)
          else []
      end
  end.

(** A round of the loop of [move_to] from the end of its wait on: [res] is
    what the wait answered. *)
Definition after_wait (f : nat) (deadline target_mm tolerance_mm : Z) (w : World)
    (res : bool * (Z * list (Z * list byte) * Desk)) : result bool * World :=
  match res with
  | (true, (t, q, d)) =>
      match _height_mm d with
      | Some h =>
          if Z.abs (h - target_mm) <=? tolerance_mm
          then (Return true, set_time t q d w)
          else move_loop f deadline target_mm tolerance_mm (set_time t q d w)
      | None => move_loop f deadline target_mm tolerance_mm (set_time t q d w)
      end
  | (false, (t, q, d)) => (Return false, set_time t q d w)
  end.

(** The world right after the acknowledged write of [move_to]. *)
Definition after_write (target_mm : Z) (w : World) : World :=
  match build_move_packet target_mm with
  | Return cmd => snd (write_gatt_char cmd w)
  | _ => w
  end.

(** The distance tests of the startup rule, as the code computes them. *)
Definition within_2cm (h preset : float) : bool :=
  (abs (h - preset) <? 2)%float.

Definition farther_than_2cm (h preset : float) : bool :=
  (2 <? abs (h - preset))%float.

(** [h] is closer to [preset] than to [other]. *)
Definition closer_to (h preset other : float) : bool :=
  (abs (h - preset) <? abs (h - other))%float.

(** The target of the first move of [_auto] for a tracker [d]. *)
Definition first_target (d : Desk) (sit stand : float) : float :=
  target_of (startup_next_is_stand (height_cm d) sit stand) sit stand.

(** ** Sample worlds *)

(** The payload that carries the characters of [s]. *)
Definition payload (s : string) : list byte := list_byte_of_string s.

(** A desk that reports 900 mm after 100 ms, then noise, then 1300 mm after
    five seconds; writes are acknowledged after 20 ms. *)
Definition rising_world : World :=
  {| clock := 0;
     inbox := [(100, payload "0900"); (200, payload "12"); (5000, payload "1300")];
     stop_at := None; dialogs := []; link_up := true; write_delay := 20;
     sent := []; desk := Desk_init |}.

(** A desk that reports 1300 mm and 900 mm in one burst, after 100 ms. *)
Definition burst_world : World :=
  {| clock := 0;
     inbox := [(100, payload "1300"); (100, payload "0900")];
     stop_at := None; dialogs := []; link_up := true; write_delay := 20;
     sent := []; desk := Desk_init |}.

(** A desk already known to stand at 1300 mm, reporting it once more. *)
Definition settled_world : World :=
  {| clock := 1000;
     inbox := [(1500, payload "1300")];
     stop_at := None; dialogs := []; link_up := true; write_delay := 20;
     sent := [];
     desk := {| _height_mm := Some 1300; _height_updated := Event_set Event_new |} |}.

(** The world of a session of [_auto] half a second after the connection:
    the desk has reported 1040 mm, and will report 735 mm at 640 s. The
    signal and the answers to the dialogs are left open: every run of
    [osascript] starts, and [answers] tells of each whether Skip is pressed
    and how long it takes. *)
Definition office_world (stop : option Z) (answers : list (bool * Z)) : World :=
  {| clock := 500;
     inbox := [(640000, payload "0735")];
     stop_at := stop;
     dialogs := map (fun a => Ran (fst a) (snd a)) answers;
     link_up := true; write_delay := 20;
     sent := [];
     desk := {| _height_mm := Some 1040; _height_updated := Event_set Event_new |} |}.

(** ** Device discovery *)

Definition SERVICE_UUID : string := "0000ff00-0000-1000-8000-00805f9b34fb".

(** What [scan] reads of a discovered device: [d.address], and the entry
    [uuids] of [d.metadata], [None] when the key is missing. *)
Record BLEDevice : Type := {
  address : string;
  metadata_uuids : option (list string)
}.

(** [s.startswith(p)] *)
Fixpoint startswith (s p : string) : bool :=
  match p, s with
  | EmptyString, _ => true
  | String a p', String c s' => Ascii.eqb a c && startswith s' p'
  | String _ _, EmptyString => false
  end.

(** [needle in hay], on strings. *)
Fixpoint contains (needle hay : string) : bool :=
  startswith hay needle
  || match hay with
     | EmptyString => false
     | String _ hay' => contains needle hay'
     end.

(** [d.metadata.get("uuids", [])] *)
Definition uuids_of (d : BLEDevice) : list string :=
  match metadata_uuids d with
  | Some us => us
  | None => []
  end.

(** [scan], on the devices that [BleakScanner.discover] found. [lower] is
    [str.lower]. *)
Definition scan (lower : string -> string) (devices : list BLEDevice) : list string :=
  fold_left
    (fun results d =>
       if existsb (fun u => contains (lower SERVICE_UUID) (lower u)) (uuids_of d)
       then results ++ [address d]
       else results)
    devices [].

(** [str.lower] on the letters A to Z, for strings of ASCII characters. *)
Definition ascii_lower_char (c : ascii) : ascii :=
  let n := N_of_ascii c in
  if ((65 <=? n) && (n <=? 90))%N then ascii_of_N (n + 32) else c.

Fixpoint ascii_lower (s : string) : string :=
  match s with
  | EmptyString => EmptyString
  | String c s' => String (ascii_lower_char c) (ascii_lower s')
  end.

(** ** Configuration *)

(** A value of a parsed TOML document, as far as the code tells them apart. *)
Inductive toml : Type :=
| TStr (s : string)
| TInt (n : Z)
| TFloat (x : float)
| TBool (b : bool)
| TOther.

Definition FALLBACK_ADDRESS : string := "".
Definition FALLBACK_SIT_CM : float := 73.
Definition FALLBACK_STAND_CM : float := 105.

(** [cfg.get(key, default)] on a dict given by its items. *)
Fixpoint dict_get (cfg : list (string * toml)) (key : string) (default : toml) : toml :=
  match cfg with
  | [] => default
  | (k, v) :: cfg' => if String.eqb key k then v else dict_get cfg' key default
  end.

(** [_load_config]. The argument is what the file system and the parser
    answer: [None] if the file does not exist; otherwise the outcome of
    [tomllib.loads(CONFIG_FILE.read_text())], [Some None] if it raised and
    [Some (Some cfg)] for the items of the parsed document. *)
Definition _load_config (file : option (option (list (string * toml))))
  : list (string * toml) :=
  match file with
  | None => []
  | Some (Some cfg) => cfg
  | Some None => []
  end.

(** [_get_config] *)
Definition _get_config (file : option (option (list (string * toml))))
  : toml * toml * toml :=
  let cfg := _load_config file in
  (dict_get cfg "address" (TStr FALLBACK_ADDRESS),
   dict_get cfg "sit_cm" (TFloat FALLBACK_SIT_CM),
   dict_get cfg "stand_cm" (TFloat FALLBACK_STAND_CM)).

(** ** Setup *)

(** [l[i]] on a list: a negative index counts from the end; [None] is the
    [IndexError]. *)
Definition list_index {A : Type} (l : list A) (i : Z) : option A :=
  let n := Z.of_nat (List.length l) in
  let j := if i <? 0 then i + n else i in
  if (0 <=? j) && (j <? n) then nth_error l (Z.to_nat j) else None.

(** How the choice of the desk in [_setup] ends. *)
Inductive selection : Type :=
| NoDesks
| Selected (a : string)
| InvalidSelection.

(** The choice of the desk in [_setup], from [addresses = await scan()] to
    the end of the [try] block. [choice] is the outcome of [int(choice)] on
    the line the user typed, [None] for its [ValueError]; it is asked for
    only when several desks were found. *)
Definition _setup_select (addresses : list string) (choice : option Z) : selection :=
  match addresses with
  | [] => NoDesks
  | [a] => Selected a
  | _ =>
      match choice with
      | Some n =>
          match list_index addresses (n - 1) with
          | Some a => Selected a
          | None => InvalidSelection
          end
      | None => InvalidSelection
      end
  end.

(** ** Commands of the command line *)

Inductive command : Type :=
| CmdSit
| CmdStand
| CmdMove (height : float)
| CmdHeight.

(** What a command prints: [No data], the height, or [Reached] or [Timeout]
    with the height. *)
Inductive report : Type :=
| NoData
| HeightIs (cm : float)
| Moved (ok : bool) (cm : option float).

(** The truth value of [desk.height_cm]: [None] and a zero are false. *)
Definition truthy (x : option float) : bool :=
  match x with
  | Some v => negb (v =? 0)%float
  | None => false
  end.

(** The branch of [_cli] for the commands [sit], [stand], [move] and
    [height], with presets that are floats: [async with connect(...)] and its
    body. *)
Definition _cli_command (sit_cm stand_cm : float) (cmd : command) : M report :=
  connect ;;;
  match cmd with
  | CmdHeight =>
      fun w =>
        (Return match height_cm (desk w) with
                | Some cm => if truthy (Some cm) then HeightIs cm else NoData
                | None => NoData
                end, w)
  | _ =>
      let target :=
        match cmd with
        | CmdSit => sit_cm
        | CmdStand => stand_cm
        | CmdMove height => height
        | CmdHeight => 0%float
        end in
      ok <- move_to_cm target default_timeout default_tolerance_mm ;;
      fun w => (Return (Moved ok (height_cm (desk w))), w)
  end.

(** A link that acknowledges nothing. *)
Definition deaf_world : World :=
  {| clock := 0; inbox := [(10, payload "1300")]; stop_at := None;
     dialogs := []; link_up := false; write_delay := 20; sent := [];
     desk := Desk_init |}.

(** Two desks in range and a lamp; the second desk advertises the service
    in capital letters, among other services. *)
Definition neighbourhood : list BLEDevice :=
  [ {| address := "AA:01";
       metadata_uuids := Some ["0000ff00-0000-1000-8000-00805f9b34fb"%string] |};
    {| address := "BB:02"; metadata_uuids := None |};
    {| address := "CC:03";
       metadata_uuids := Some ["0000180A-0000-1000-8000-00805F9B34FB"%string;
                               "0000FF00-0000-1000-8000-00805F9B34FB"%string] |} ].

(** The keys of a dict given by its items. *)
Definition keys (cfg : list (string * toml)) : list string := map fst cfg.

(** ** More notions used to state the properties *)

(** The payload of four decimal digits for a height of at most 9999. *)
Definition digit_byte (d : Z) : byte :=
  match Byte.of_N (Z.to_N (48 + d)) with
  | Some x => x
  | None => x30
  end.

Definition four_digits (n : Z) : list byte :=
  [digit_byte (n / 1000); digit_byte ((n / 100) mod 10);
   digit_byte ((n / 10) mod 10); digit_byte (n mod 10)].

(** The [n] integers from [z] on. *)
Fixpoint count_from (n : nat) (z : Z) : list Z :=
  match n with
  | O => []
  | S n' => z :: count_from n' (z + 1)
  end.

(** The heights a tracker can hold: 0 to 9999. *)
Definition tracked_heights : list Z := count_from (Z.to_nat 10000) 0.

(** [n] frames that alternate between two heights, starting with the one
    that [next_is_stand] names. *)
Fixpoint alternating (n : nat) (next_is_stand : bool) (sit_mm stand_mm : Z)
  : list (list Z) :=
  match n with
  | O => []
  | S n' =>
      frame (clamp_mm (if next_is_stand then stand_mm else sit_mm))
      :: alternating n' (negb next_is_stand) sit_mm stand_mm
  end.

(** ** Theorems *)

Lemma clamp_mm_range (t : Z) : 650 <= clamp_mm t <= 1300.
Proof. unfold clamp_mm, MIN_HEIGHT_MM, MAX_HEIGHT_MM. lia. Qed.

Lemma clamp_mm_id (t : Z) : 650 <= t <= 1300 -> clamp_mm t = t.
Proof. unfold clamp_mm, MIN_HEIGHT_MM, MAX_HEIGHT_MM. lia. Qed.

Lemma hi_byte (h : Z) : Z.land (Z.shiftr h 8) 0xFF = (h / 256) mod 256.
Proof.
  rewrite Z.shiftr_div_pow2 by lia.
  change 0xFF with (Z.ones 8). rewrite Z.land_ones by lia.
  reflexivity.
Qed.

Lemma lo_byte (h : Z) : Z.land h 0xFF = h mod 256.
Proof. change 0xFF with (Z.ones 8). now rewrite Z.land_ones by lia. Qed.

Lemma xor_byte (a b : Z) : 0 <= a < 256 -> 0 <= b < 256 -> 0 <= Z.lxor a b < 256.
Proof.
  intros Ha Hb. split.
  - apply Z.lxor_nonneg. lia.
  - destruct (Z.eq_dec (Z.lxor a b) 0) as [->|Hn]; [lia|].
    apply Z.log2_lt_cancel. change (Z.log2 256) with 8.
    eapply Z.le_lt_trans; [apply Z.log2_lxor; lia|].
    assert (La : Z.log2 a < 8).
    { destruct (Z.eq_dec a 0) as [->|]; [simpl; lia|].
      apply Z.log2_lt_pow2; lia. }
    assert (Lb : Z.log2 b < 8).
    { destruct (Z.eq_dec b 0) as [->|]; [simpl; lia|].
      apply Z.log2_lt_pow2; lia. }
    lia.
Qed.

Lemma split_bytes (h : Z) :
  650 <= h <= 1300 -> 0 <= h / 256 < 256 /\ 0 <= h mod 256 < 256.
Proof.
  intros Hr. split.
  - split; [apply Z.div_pos; lia|apply Z.div_lt_upper_bound; lia].
  - apply Z.mod_pos_bound. lia.
Qed.

Lemma checksum_byte (h : Z) :
  650 <= h <= 1300 -> 0 <= xor_fold [0x01; h / 256; h mod 256; 0x00; 0x00] < 256.
Proof.
  intros Hr. destruct (split_bytes h Hr) as [Hhi Hlo].
  unfold xor_fold. cbn [fold_left]. rewrite !Z.lxor_0_r, Z.lxor_0_l.
  apply xor_byte; [apply xor_byte|]; lia.
Qed.

(** The codec never raises: its answer is the frame of the clamped height. *)
Lemma build_move_packet_returns (target_mm : Z) :
  build_move_packet target_mm = Return (frame (clamp_mm target_mm)).
Proof.
  pose proof (clamp_mm_range target_mm) as Hr.
  destruct (split_bytes _ Hr) as [Hhi Hlo].
  pose proof (checksum_byte _ Hr) as Hchk.
  unfold build_move_packet. cbv zeta.
  rewrite hi_byte, lo_byte.
  rewrite (Z.mod_small (clamp_mm target_mm / 256) 256 Hhi).
  cbn [skipn app]. fold (frame (clamp_mm target_mm)).
  unfold py_bytes, frame. cbn [forallb].
  repeat match goal with
  | |- context [(0 <=? ?x) && (?x <? 256)] =>
      replace ((0 <=? x) && (x <? 256)) with true
        by (symmetry; apply andb_true_iff; split;
            [apply Z.leb_le | apply Z.ltb_lt]; lia)
  end.
  reflexivity.
Qed.

(** C1. For every integer target, [build_move_packet] clamps the target into
    [650, 1300] and returns, without raising, exactly the nine bytes
    [0xA6, 0xA8, 0x01, hi, lo, 0x00, 0x00, checksum, 0xFF]: [hi] and [lo] are
    the big-endian split of the clamped height ([256 * hi + lo] is the clamped
    height and both are bytes), and the checksum is the XOR of the bytes at
    indices 2..6. In particular the packets for 0 and 650 coincide, and so do
    those for 9999 and 1300. *)
Theorem build_move_packet_frame (target_mm : Z) :
  let h := clamp_mm target_mm in
  let hi := h / 256 in
  let lo := h mod 256 in
  let chk := Z.lxor (Z.lxor (Z.lxor (Z.lxor (Z.lxor 0 0x01) hi) lo) 0x00) 0x00 in
  650 <= h <= 1300 /\
  (h = if target_mm <? 650 then 650 else if 1300 <? target_mm then 1300 else target_mm) /\
  build_move_packet target_mm
    = Return [0xA6; 0xA8; 0x01; hi; lo; 0x00; 0x00; chk; 0xFF] /\
  256 * hi + lo = h /\ 0 <= hi < 256 /\ 0 <= lo < 256 /\ 0 <= chk < 256 /\
  List.length [0xA6; 0xA8; 0x01; hi; lo; 0x00; 0x00; chk; 0xFF] = 9%nat /\
  build_move_packet 0 = build_move_packet 650 /\
  build_move_packet 9999 = build_move_packet 1300.
Proof.
  intros h hi lo chk.
  pose proof (clamp_mm_range target_mm) as Hr. fold h in Hr.
  destruct (split_bytes h Hr) as [Hhi Hlo]. fold hi in Hhi. fold lo in Hlo.
  pose proof (checksum_byte h Hr) as Hchk.
  split; [exact Hr|]. split.
  { unfold h, clamp_mm, MIN_HEIGHT_MM, MAX_HEIGHT_MM.
    destruct (Z.ltb_spec target_mm 650); [lia|].
    destruct (Z.ltb_spec 1300 target_mm); lia. }
  split; [apply build_move_packet_returns|]. split.
  { unfold hi, lo. pose proof (Z.div_mod h 256). lia. }
  split; [exact Hhi|]. split; [exact Hlo|]. split; [exact Hchk|].
  split; [reflexivity|]. split; reflexivity.
Qed.

(** *** The telemetry decoder *)

Lemma N_of_ascii_of_byte (x : byte) : N_of_ascii (ascii_of_byte x) = Byte.to_N x.
Proof.
  rewrite ascii_of_byte_via_N. apply N_ascii_embedding.
  pose proof (Byte.to_N_bounded x). lia.
Qed.

Lemma string_of_list_byte_length (data : list byte) :
  String.length (string_of_list_byte data) = List.length data.
Proof.
  unfold string_of_list_byte.
  induction data as [|x data IH]; cbn; [reflexivity|now rewrite IH].
Qed.

Lemma is_decimal_byte (x : byte) :
  is_decimal (ascii_of_byte x) = ((48 <=? Byte.to_N x) && (Byte.to_N x <=? 57))%N.
Proof. unfold is_decimal. now rewrite N_of_ascii_of_byte. Qed.

Lemma decimal_below_128 (x : byte) :
  ((48 <=? Byte.to_N x) && (Byte.to_N x <=? 57))%N = true ->
  (Byte.to_N x <? 128)%N = true.
Proof.
  intros H. apply andb_true_iff in H as [_ H].
  apply N.leb_le in H. apply N.ltb_lt. lia.
Qed.

(** The handler's checks, in one expression. *)
Lemma reading_unfold (data : list byte) :
  reading data =
    if forallb (fun x => (Byte.to_N x <? 128)%N) data then
      if (String.length (string_of_list_byte data) =? 4)%nat
         && isdigit (string_of_list_byte data)
      then Some (decimal_value 0 (string_of_list_byte data))
      else None
    else None.
Proof.
  unfold reading, _on_height, _on_height_try, decode_ascii, int_of_str.
  destruct (forallb _ data); [|reflexivity].
  destruct (String.length (string_of_list_byte data) =? 4)%nat; [|reflexivity].
  cbn [andb]. destruct (isdigit (string_of_list_byte data)); reflexivity.
Qed.

(** On four bytes the handler's checks and the specification's agree. *)
Lemma reading_four (b3 b2 b1 b0 : byte) :
  reading [b3; b2; b1; b0] = decode_spec [b3; b2; b1; b0].
Proof.
  rewrite reading_unfold. unfold decode_spec.
  cbn [map forallb].
  replace (string_of_list_byte [b3; b2; b1; b0])
    with (String (ascii_of_byte b3) (String (ascii_of_byte b2)
           (String (ascii_of_byte b1) (String (ascii_of_byte b0) EmptyString))))
    by reflexivity.
  cbn [String.length Nat.eqb isdigit all_decimal decimal_value].
  rewrite !is_decimal_byte, !N_of_ascii_of_byte.
  destruct ((48 <=? Byte.to_N b3) && (Byte.to_N b3 <=? 57))%N eqn:E3;
    [rewrite (decimal_below_128 _ E3)
    |cbn [andb]; match goal with |- (if ?c then _ else _) = _ => destruct c end;
     reflexivity].
  destruct ((48 <=? Byte.to_N b2) && (Byte.to_N b2 <=? 57))%N eqn:E2;
    [rewrite (decimal_below_128 _ E2)
    |cbn [andb]; match goal with |- (if ?c then _ else _) = _ => destruct c end;
     reflexivity].
  destruct ((48 <=? Byte.to_N b1) && (Byte.to_N b1 <=? 57))%N eqn:E1;
    [rewrite (decimal_below_128 _ E1)
    |cbn [andb]; match goal with |- (if ?c then _ else _) = _ => destruct c end;
     reflexivity].
  destruct ((48 <=? Byte.to_N b0) && (Byte.to_N b0 <=? 57))%N eqn:E0;
    [rewrite (decimal_below_128 _ E0)
    |cbn [andb]; match goal with |- (if ?c then _ else _) = _ => destruct c end;
     reflexivity].
  cbn [andb]. f_equal.
  apply andb_true_iff in E3 as [E3 _], E2 as [E2 _], E1 as [E1 _], E0 as [E0 _].
  apply N.leb_le in E3, E2, E1, E0. lia.
Qed.

(** A payload that is not four bytes long is dropped. *)
Lemma reading_other_length (data : list byte) :
  List.length data <> 4%nat -> reading data = None /\ decode_spec data = None.
Proof.
  intros Hlen. split.
  - rewrite reading_unfold.
    destruct (forallb _ data); [|reflexivity].
    rewrite string_of_list_byte_length.
    destruct (Nat.eqb_spec (List.length data) 4) as [E|_]; [contradiction|].
    reflexivity.
  - unfold decode_spec.
    destruct data as [|? [|? [|? [|? [|? ?]]]]]; cbn in *; try reflexivity.
    contradiction.
Qed.

(** The handler implements the decoder of the specification. *)
Lemma reading_decode_spec (data : list byte) : reading data = decode_spec data.
Proof.
  destruct (Nat.eq_dec (List.length data) 4) as [E|N].
  - destruct data as [|b3 [|b2 [|b1 [|b0 [|? ?]]]]]; try discriminate E.
    apply reading_four.
  - destruct (reading_other_length data N) as [-> ->]. reflexivity.
Qed.

(** What the handler does to any tracker, by what it would store in a fresh
    one. *)
Lemma on_height_cases (self : Desk) (data : list byte) :
  _on_height self data =
    match reading data with
    | Some n => {| _height_mm := Some n;
                   _height_updated := Event_set (_height_updated self) |}
    | None => self
    end.
Proof.
  unfold reading, _on_height, _on_height_try.
  destruct (decode_ascii data) as [s| |]; try reflexivity.
  destruct ((String.length s =? 4)%nat && isdigit s); [|reflexivity].
  destruct (int_of_str s); reflexivity.
Qed.

Lemma decode_spec_range (data : list byte) (n : Z) :
  decode_spec data = Some n -> 0 <= n <= 9999.
Proof.
  unfold decode_spec.
  destruct (map Byte.to_N data) as [|c3 [|c2 [|c1 [|c0 [|? ?]]]]]; try discriminate.
  cbn [forallb].
  destruct ((48 <=? c3) && (c3 <=? 57))%N eqn:E3; [|discriminate].
  destruct ((48 <=? c2) && (c2 <=? 57))%N eqn:E2; [|discriminate].
  destruct ((48 <=? c1) && (c1 <=? 57))%N eqn:E1; [|discriminate].
  destruct ((48 <=? c0) && (c0 <=? 57))%N eqn:E0; [|discriminate].
  unfold andb. intros H.
  assert (Hn : n = Z.of_N (1000 * (c3 - 48) + 100 * (c2 - 48) + 10 * (c1 - 48) + (c0 - 48)))
    by congruence.
  apply andb_true_iff in E3 as [A3 B3], E2 as [A2 B2], E1 as [A1 B1], E0 as [A0 B0].
  apply N.leb_le in A3, B3, A2, B2, A1, B1, A0, B0. lia.
Qed.

Lemma reading_range (data : list byte) (n : Z) :
  reading data = Some n -> 0 <= n <= 9999.
Proof. rewrite reading_decode_spec. apply decode_spec_range. Qed.

Lemma decode_spec_digits (data : list byte) (n : Z) :
  decode_spec data = Some n <->
  exists d3 d2 d1 d0 : N,
    (d3 < 10 /\ d2 < 10 /\ d1 < 10 /\ d0 < 10)%N /\
    map Byte.to_N data = [48 + d3; 48 + d2; 48 + d1; 48 + d0]%N /\
    n = Z.of_N (1000 * d3 + 100 * d2 + 10 * d1 + d0).
Proof.
  unfold decode_spec. split.
  - destruct (map Byte.to_N data) as [|c3 [|c2 [|c1 [|c0 [|? ?]]]]]; try discriminate.
    cbn [forallb].
    destruct ((48 <=? c3) && (c3 <=? 57))%N eqn:E3; [|discriminate].
    destruct ((48 <=? c2) && (c2 <=? 57))%N eqn:E2; [|discriminate].
    destruct ((48 <=? c1) && (c1 <=? 57))%N eqn:E1; [|discriminate].
    destruct ((48 <=? c0) && (c0 <=? 57))%N eqn:E0; [|discriminate].
    unfold andb. intros H.
    assert (Hn : n = Z.of_N (1000 * (c3 - 48) + 100 * (c2 - 48) + 10 * (c1 - 48) + (c0 - 48)))
      by congruence.
    apply andb_true_iff in E3 as [A3 B3], E2 as [A2 B2], E1 as [A1 B1], E0 as [A0 B0].
    apply N.leb_le in A3, B3, A2, B2, A1, B1, A0, B0.
    exists (c3 - 48)%N, (c2 - 48)%N, (c1 - 48)%N, (c0 - 48)%N.
    split; [lia|]. split; [|exact Hn].
    repeat (f_equal; try lia).
  - intros (d3 & d2 & d1 & d0 & (H3 & H2 & H1 & H0) & -> & ->).
    cbn [forallb].
    replace ((48 <=? 48 + d3) && (48 + d3 <=? 57))%N with true
      by (symmetry; apply andb_true_iff; split; apply N.leb_le; lia).
    replace ((48 <=? 48 + d2) && (48 + d2 <=? 57))%N with true
      by (symmetry; apply andb_true_iff; split; apply N.leb_le; lia).
    replace ((48 <=? 48 + d1) && (48 + d1 <=? 57))%N with true
      by (symmetry; apply andb_true_iff; split; apply N.leb_le; lia).
    replace ((48 <=? 48 + d0) && (48 + d0 <=? 57))%N with true
      by (symmetry; apply andb_true_iff; split; apply N.leb_le; lia).
    unfold andb. do 2 f_equal. lia.
Qed.

(** C4. The handler stores a reading if and only if the payload is exactly
    four bytes, each the ASCII code of a decimal digit, and then the reading
    is their base-ten value, unchanged and unclamped; it agrees with the
    decoder of the specification on every payload. A payload that yields a
    reading makes the tracker [Known] and sets the signal; every other payload
    leaves the tracker and the signal as they were. An exception raised inside
    the [try] block (a payload that is not ASCII) ends in the [except] clause:
    the handler returns, with the tracker as it was. *)
Theorem on_height_reads_four_digits (self : Desk) (data : list byte) :
  (forall n : Z,
      reading data = Some n <->
      exists d3 d2 d1 d0 : N,
        (d3 < 10 /\ d2 < 10 /\ d1 < 10 /\ d0 < 10)%N /\
        map Byte.to_N data = [48 + d3; 48 + d2; 48 + d1; 48 + d0]%N /\
        n = Z.of_N (1000 * d3 + 100 * d2 + 10 * d1 + d0)) /\
  reading data = decode_spec data /\
  (forall n : Z,
      reading data = Some n ->
      _on_height self data =
        {| _height_mm := Some n;
           _height_updated := Event_set (_height_updated self) |}) /\
  (reading data = None -> _on_height self data = self) /\
  (forall e : exn,
      _on_height_try self data = Raise e ->
      reading data = None /\ _on_height self data = self) /\
  _on_height_try self data <> Diverged.
Proof.
  split. { intros n. rewrite reading_decode_spec. apply decode_spec_digits. }
  split. { apply reading_decode_spec. }
  split. { intros n Hn. rewrite on_height_cases, Hn. reflexivity. }
  split. { intros Hn. rewrite on_height_cases, Hn. reflexivity. }
  split.
  - intros e He.
    assert (Hs : _on_height self data = self)
      by (unfold _on_height; rewrite He; reflexivity).
    split; [|exact Hs].
    rewrite on_height_cases in Hs.
    destruct (reading data) as [n|] eqn:Hr; [|reflexivity].
    exfalso. revert He. unfold _on_height_try.
    destruct (decode_ascii data) as [s| |] eqn:Ed.
    + unfold int_of_str.
      destruct ((String.length s =? 4)%nat && isdigit s) eqn:Ec; [|discriminate].
      apply andb_true_iff in Ec as [_ ->]. discriminate.
    + intros _. unfold reading, _on_height, _on_height_try in Hr.
      rewrite Ed in Hr. discriminate.
    + discriminate.
  - unfold _on_height_try, decode_ascii, int_of_str.
    destruct (forallb _ data); [|discriminate].
    destruct ((String.length (string_of_list_byte data) =? 4)%nat
              && isdigit (string_of_list_byte data)) eqn:Ec; [|discriminate].
    apply andb_true_iff in Ec as [_ ->]. discriminate.
Qed.

Lemma on_height_reads_four_digits_witness :
  reading (payload "0950") = Some 950 /\
  _on_height Desk_init (payload "0950")
    = {| _height_mm := Some 950; _height_updated := Event_set Event_new |} /\
  reading (payload "95.0") = None /\
  _on_height Desk_init (payload "95.0") = Desk_init.
Proof.
  split; [reflexivity|]. split.
  - exact (proj1 (proj2 (proj2
             (on_height_reads_four_digits Desk_init (payload "0950")))) 950 eq_refl).
  - split; [reflexivity|].
    exact (proj1 (proj2 (proj2 (proj2
             (on_height_reads_four_digits Desk_init (payload "95.0"))))) eq_refl).
Defined.

(** The decoder on the payloads that the specification lists. *)
Example reading_examples :
  reading (list_byte_of_string "0950") = Some 950 /\
  reading (list_byte_of_string "95") = None /\
  reading (list_byte_of_string "95.0") = None /\
  reading (list_byte_of_string "") = None /\
  reading [x30; xff; x30; x30]%byte = None /\
  _on_height_try Desk_init [x30; xff; x30; x30]%byte = Raise UnicodeDecodeError /\
  reading (list_byte_of_string "9999") = Some 9999 /\
  reading (list_byte_of_string "0000") = Some 0.
Proof. repeat split. Qed.

(** *** The height tracker *)

Lemma run_handler_height (self : Desk) (ps : list (list byte)) :
  _height_mm (run_handler self ps) = last_reading (_height_mm self) ps.
Proof.
  unfold run_handler, last_reading. revert self.
  induction ps as [|data ps IH]; intros self; cbn [fold_left]; [reflexivity|].
  rewrite IH, on_height_cases. destruct (reading data); reflexivity.
Qed.

Lemma run_handler_sets (self : Desk) (ps : list (list byte)) :
  sets (_height_updated (run_handler self ps))
  = (sets (_height_updated self) + accepted_count ps)%nat.
Proof.
  unfold run_handler, accepted_count. revert self.
  induction ps as [|data ps IH]; intros self; cbn [fold_left filter]; [cbn; lia|].
  rewrite IH, on_height_cases. destruct (reading data); cbn; lia.
Qed.

Lemma last_reading_app (h0 : option Z) (ps qs : list (list byte)) :
  last_reading h0 (ps ++ qs) = last_reading (last_reading h0 ps) qs.
Proof. unfold last_reading. apply fold_left_app. Qed.

Lemma last_reading_range (h0 : option Z) (ps : list (list byte)) :
  match h0 with Some h => 0 <= h <= 9999 | None => True end ->
  match last_reading h0 ps with Some h => 0 <= h <= 9999 | None => True end.
Proof.
  unfold last_reading. revert h0.
  induction ps as [|data ps IH]; intros h0 H0; cbn [fold_left]; [exact H0|].
  apply IH. destruct (reading data) as [n|] eqn:E; [|exact H0].
  exact (reading_range data n E).
Qed.

Lemma on_height_in_range (self : Desk) (data : list byte) :
  height_in_range self -> height_in_range (_on_height self data).
Proof.
  unfold height_in_range. intros H. rewrite on_height_cases.
  destruct (reading data) as [n|] eqn:E; [|exact H].
  exact (reading_range data n E).
Qed.

(** C5. The tracker starts [Unknown] with its signal unset. From any state,
    a payload that yields the reading [r] leads to [Known r] and sets the
    signal by one call of [set()]; a payload that yields none changes nothing.
    Hence after any sequence of payloads the tracked height is the last
    reading (or what it was, if there was none) and [set()] was called once
    per reading. Clearing the signal and reading the properties leave the
    tracked height alone. *)
Theorem tracker_state_machine (self : Desk) (data : list byte) (ps : list (list byte)) :
  height_mm Desk_init = None /\
  is_set (_height_updated Desk_init) = false /\
  (forall r : Z,
      reading data = Some r ->
      height_mm (_on_height self data) = Some r /\
      is_set (_height_updated (_on_height self data)) = true /\
      sets (_height_updated (_on_height self data)) = S (sets (_height_updated self))) /\
  (reading data = None -> _on_height self data = self) /\
  height_mm (run_handler self ps) = last_reading (height_mm self) ps /\
  sets (_height_updated (run_handler self ps))
    = (sets (_height_updated self) + accepted_count ps)%nat /\
  height_mm (cleared self) = height_mm self /\
  (forall w : World,
      desk (snd (clear_height_updated w)) = cleared (desk w)).
Proof.
  split; [reflexivity|]. split; [reflexivity|].
  split.
  { intros r Hr. rewrite on_height_cases, Hr. repeat split. }
  split.
  { intros Hr. rewrite on_height_cases, Hr. reflexivity. }
  split; [apply run_handler_height|].
  split; [apply run_handler_sets|].
  split; reflexivity.
Qed.

Lemma tracker_state_machine_witness :
  reading (payload "0950") = Some 950 /\
  height_mm (_on_height Desk_init (payload "0950")) = Some 950 /\
  is_set (_height_updated (_on_height Desk_init (payload "0950"))) = true /\
  sets (_height_updated (_on_height Desk_init (payload "0950"))) = 1%nat.
Proof.
  split; [reflexivity|].
  exact (proj1 (proj2 (proj2
           (tracker_state_machine Desk_init (payload "0950") []))) 950 eq_refl).
Defined.

(** *** Time passing *)

Lemma passes_refl (w : World) : passes w w [].
Proof. unfold passes. cbn. repeat split; reflexivity || lia. Qed.

Lemma passes_trans (w w1 w2 : World) (ps qs : list (Z * list byte)) :
  passes w w1 ps -> passes w1 w2 qs -> passes w w2 (ps ++ qs).
Proof.
  unfold passes.
  intros (C1 & S1 & L1 & D1 & I1 & H1) (C2 & S2 & L2 & D2 & I2 & H2).
  repeat split; try congruence; try lia.
  - rewrite I1, I2. now rewrite app_assoc.
  - rewrite H2, H1, map_app. symmetry. apply last_reading_app.
Qed.

Lemma passes_in_range (w w' : World) (ps : list (Z * list byte)) :
  passes w w' ps -> height_in_range (desk w) -> height_in_range (desk w').
Proof.
  unfold passes, height_in_range. intros (_ & _ & _ & _ & _ & ->).
  apply last_reading_range.
Qed.

Lemma deliver_until_spec (t : Z) (q : list (Z * list byte)) (d : Desk) :
  exists ps,
    q = ps ++ fst (deliver_until t q d) /\
    snd (deliver_until t q d) = run_handler d (map snd ps) /\
    match fst (deliver_until t q d) with
    | (a, _) :: _ => t < a
    | [] => True
    end.
Proof.
  revert d. induction q as [|[a data] q IH]; intros d; cbn [deliver_until].
  - exists []. repeat split.
  - destruct (Z.leb_spec a t) as [Ha|Ha].
    + destruct (IH (_on_height d data)) as (ps & Hq & Hd & Hh).
      exists ((a, data) :: ps). cbn [app map snd run_handler fold_left].
      split; [now rewrite <- Hq|]. split; assumption.
    + exists []. cbn. repeat split. exact Ha.
Qed.

Lemma sleep_until_spec (t : Z) (w : World) :
  clock (sleep_until t w) = Z.max (clock w) t /\
  sent (sleep_until t w) = sent w /\
  dialogs (sleep_until t w) = dialogs w /\
  match inbox (sleep_until t w) with
  | (a, _) :: _ => clock (sleep_until t w) < a
  | [] => True
  end /\
  exists ps, passes w (sleep_until t w) ps.
Proof.
  unfold sleep_until.
  destruct (deliver_until_spec (Z.max (clock w) t) (inbox w) (desk w))
    as (ps & Hq & Hd & Hh).
  destruct (deliver_until (Z.max (clock w) t) (inbox w) (desk w)) as [q d].
  cbn in *. repeat split; try assumption.
  exists ps. unfold passes. cbn. repeat split; try assumption; try lia.
  rewrite Hd. apply run_handler_height.
Qed.

(** *** The convergence loop *)

(** One round of the loop of [move_to], entered before the deadline. *)
Lemma loop_round (f : nat) (deadline target tol : Z) (w : World) :
  clock w < deadline ->
  move_loop (S f) deadline target tol w =
    after_wait f deadline target tol w
      (await_update deadline (inbox w) (clock w) (cleared (desk w))).
Proof.
  intros Hc. destruct w as [c q s dl lu wd sn d].
  cbn [move_loop]. unfold bind, monotonic, clear_height_updated, ret.
  cbn [clock desk set_desk inbox] in *.
  destruct (Z.ltb_spec c deadline) as [_|]; [|lia].
  unfold wait_for_height_updated, set_desk, cleared, after_wait.
  cbn [desk clock inbox _height_updated _height_mm is_set Event_clear _value].
  destruct (Z.leb_spec (deadline - c) 0) as [|_]; [lia|].
  replace (c + (deadline - c)) with deadline by lia.
  destruct (await_update deadline q c _) as [[|] [[t q'] d']]; reflexivity.
Qed.

Lemma loop_late (f : nat) (deadline target tol : Z) (w : World) :
  deadline <= clock w ->
  move_loop (S f) deadline target tol w = (Return false, w).
Proof.
  intros Hc. cbn [move_loop]. unfold bind, monotonic, ret.
  destruct (Z.ltb_spec (clock w) deadline); [lia|reflexivity].
Qed.

Lemma in_tolerance_accepted (target tol : Z) (data : list byte) (r : Z) :
  reading data = Some r ->
  in_tolerance target tol data = (Z.abs (r - target) <=? tol).
Proof. unfold in_tolerance. now intros ->. Qed.

(** Between the setting of the signal and the caller's resuming: the heights
    it will read are the one the burst ends with, and then what a fresh wait
    on the rest of the queue gives. *)
Lemma observations_batch (deadline : Z) (q : list (Z * list byte)) (now : Z) :
  forall (h : Z) (d : Desk),
    _height_mm d = Some h ->
    exists h',
      _height_mm (snd (deliver_until now q d)) = Some h' /\
      observations deadline q now (Some h)
      = h' :: (if now <? deadline
               then observations deadline (fst (deliver_until now q d)) now None
               else []).
Proof.
  induction q as [|[a data] q IH]; intros h d Hd; cbn [deliver_until observations].
  - exists h. cbn [fst snd]. split; [exact Hd|].
    destruct (now <? deadline); reflexivity.
  - destruct (Z.leb_spec a now) as [Ha|Ha].
    + apply IH. rewrite on_height_cases.
      destruct (reading data) as [r|]; [reflexivity|exact Hd].
    + exists h. cbn [fst snd observations]. split; [exact Hd|reflexivity].
Qed.

(** The rest of a round of [move_to] once it waits: it returns, sends
    nothing, and its answer is whether one of the heights read at the
    wake-ups is within the tolerance. *)
Lemma after_wait_spec (n : nat) :
  forall (q : list (Z * list byte)) (f : nat) (deadline target tol : Z)
         (w : World) (now : Z) (d : Desk),
    (List.length q <= n)%nat -> (List.length q < S f)%nat ->
    is_set (_height_updated d) = false -> now <= deadline ->
    exists (b : bool) (w' : World) (ps : list (Z * list byte)),
      after_wait f deadline target tol w (await_update deadline q now d)
        = (Return b, w') /\
      sent w' = sent w /\ dialogs w' = dialogs w /\
      stop_at w' = stop_at w /\ link_up w' = link_up w /\
      write_delay w' = write_delay w /\
      q = ps ++ inbox w' /\
      _height_mm (desk w') = last_reading (_height_mm d) (map snd ps) /\
      now <= clock w' /\
      b = existsb (within target tol) (observations deadline q now None) /\
      (b = false -> clock w' = deadline) /\
      (b = true ->
       clock w' <= deadline /\
       exists h, _height_mm (desk w') = Some h /\ Z.abs (h - target) <= tol).
Proof.
  induction n as [|n IH]; intros q f deadline target tol w now d Hn Hf Hu Hnow.
  { destruct q; [|cbn in Hn; lia]. cbn [await_update after_wait observations existsb].
    exists false, (set_time (Z.max now deadline) [] d w), [].
    cbn. repeat split; try reflexivity; try discriminate; lia. }
  destruct q as [|[a data] q].
  { cbn [await_update after_wait observations existsb].
    exists false, (set_time (Z.max now deadline) [] d w), [].
    cbn. repeat split; try reflexivity; try discriminate; lia. }
  cbn [await_update observations]. cbn [List.length] in Hn, Hf.
  destruct (Z.leb_spec a deadline) as [Ha|Ha].
  2:{ cbn [after_wait existsb].
      exists false, (set_time (Z.max now deadline) ((a, data) :: q) d w), [].
      cbn. repeat split; try reflexivity; try discriminate; lia. }
  rewrite on_height_cases.
  destruct (reading data) as [r|] eqn:Hr.
  - (* the signal is set: the burst is handled, then the caller resumes *)
    cbn [_height_updated is_set Event_set _value].
    set (d1 := {| _height_mm := Some r;
                  _height_updated := Event_set (_height_updated d) |}).
    destruct (deliver_until_spec (Z.max now a) q d1) as (ps & Hq & Hd2 & _).
    destruct (observations_batch deadline q (Z.max now a) r d1 eq_refl)
      as (h' & Hh' & Hobs).
    destruct (deliver_until (Z.max now a) q d1) as [q2 d2]. cbn [fst snd] in *.
    rewrite Hobs. cbn [after_wait existsb]. rewrite Hh'.
    set (w2 := set_time (Z.max now a) q2 d2 w).
    assert (Hh2 : _height_mm d2 = last_reading (_height_mm d) (map snd ((a, data) :: ps))).
    { rewrite Hd2, run_handler_height. cbn [map snd]. unfold last_reading.
      cbn [fold_left]. now rewrite Hr. }
    unfold within at 1.
    destruct (Z.leb_spec (Z.abs (h' - target)) tol) as [Ht|Ht].
    + exists true, w2, ((a, data) :: ps). cbn [orb].
      split; [reflexivity|]. split; [reflexivity|]. split; [reflexivity|].
      split; [reflexivity|]. split; [reflexivity|]. split; [reflexivity|].
      split; [cbn; now rewrite <- Hq|]. split; [exact Hh2|].
      split; [cbn; lia|]. split; [reflexivity|]. split; [discriminate|].
      intros _. split; [cbn; lia|]. exists h'. split; [exact Hh'|exact Ht].
    + cbn [orb].
      assert (Hlen : (List.length q2 <= List.length q)%nat).
      { rewrite Hq, length_app. lia. }
      destruct f as [|f']; [lia|].
      destruct (Z.ltb_spec (Z.max now a) deadline) as [Hlt|Hge].
      * rewrite (loop_round f' deadline target tol w2) by (cbn; lia).
        destruct (IH q2 f' deadline target tol w2 (Z.max now a) (cleared d2))
          as (b & w' & ps2 & E & Hs & Hdl & Hst & Hlu & Hwd & Hq2 & Hh & Hc & Hb & Hbf & Hbt);
          [lia|lia|reflexivity|lia|].
        cbn [inbox clock desk w2 set_time] in E.
        exists b, w', (((a, data) :: ps) ++ ps2).
        split; [exact E|]. split; [exact Hs|]. split; [exact Hdl|].
        split; [exact Hst|]. split; [exact Hlu|]. split; [exact Hwd|].
        split; [cbn; rewrite <- app_assoc, <- Hq2, <- Hq; reflexivity|].
        split.
        { rewrite Hh, map_app, last_reading_app. cbn [cleared _height_mm].
          now rewrite Hh2. }
        split; [lia|]. split; [exact Hb|]. split; [exact Hbf|exact Hbt].
      * rewrite (loop_late _ deadline target tol w2) by (cbn; lia).
        exists false, w2, ((a, data) :: ps). cbn [existsb].
        split; [reflexivity|]. split; [reflexivity|]. split; [reflexivity|].
        split; [reflexivity|]. split; [reflexivity|]. split; [reflexivity|].
        split; [cbn; now rewrite <- Hq|]. split; [exact Hh2|].
        split; [cbn; lia|]. split; [reflexivity|].
        split; [intros _; cbn; lia|discriminate].
  - (* a rejected payload wakes nobody *)
    rewrite Hu.
    destruct (IH q f deadline target tol w (Z.max now a) d)
      as (b & w' & ps & E & Hs & Hdl & Hst & Hlu & Hwd & Hq & Hh & Hc & Hb & Hbf & Hbt);
      [lia|lia|exact Hu|lia|].
    exists b, w', ((a, data) :: ps).
    split; [exact E|]. split; [exact Hs|]. split; [exact Hdl|].
    split; [exact Hst|]. split; [exact Hlu|]. split; [exact Hwd|].
    split; [cbn; now rewrite <- Hq|]. split.
    { rewrite Hh. cbn [map snd]. unfold last_reading. cbn [fold_left].
      now rewrite Hr. }
    split; [lia|]. split; [exact Hb|]. split; [exact Hbf|exact Hbt].
Qed.

(** The loop of [move_to] on any world: it returns, sends nothing, and its
    answer is whether, entered before the deadline, it reads a height within
    the tolerance of the target it was given at one of its wake-ups. *)
Lemma move_loop_spec (q : list (Z * list byte)) :
  forall (fuel : nat) (deadline target tol : Z) (w : World),
    inbox w = q -> (List.length q < fuel)%nat ->
    exists (b : bool) (w' : World) (ps : list (Z * list byte)),
      move_loop fuel deadline target tol w = (Return b, w') /\
      sent w' = sent w /\ dialogs w' = dialogs w /\
      passes w w' ps /\
      b = (clock w <? deadline)
          && existsb (within target tol) (observations deadline q (clock w) None) /\
      (b = false -> clock w' = Z.max (clock w) deadline) /\
      (b = true ->
       clock w < deadline /\ clock w' <= deadline /\
       exists h, _height_mm (desk w') = Some h /\ Z.abs (h - target) <= tol).
Proof.
  intros fuel deadline target tol w Hq Hf.
  destruct fuel as [|f]; [lia|].
  destruct (Z.ltb_spec (clock w) deadline) as [Hc|Hc].
  - rewrite (loop_round f deadline target tol w Hc), Hq.
    destruct (after_wait_spec (List.length q) q f deadline target tol w (clock w)
                (cleared (desk w)) (Nat.le_refl _) ltac:(lia) eq_refl ltac:(lia))
      as (b & w' & ps & E & Hs & Hdl & Hst & Hlu & Hwd & Hq' & Hh & Hcl & Hb & Hbf & Hbt).
    exists b, w', ps.
    split; [exact E|]. split; [exact Hs|]. split; [exact Hdl|].
    split. { unfold passes. rewrite Hq. repeat split; assumption. }
    split; [exact Hb|]. split; [intros Hbb; rewrite (Hbf Hbb); lia|].
    intros Hbb. destruct (Hbt Hbb) as [H1 H2]. split; [exact Hc|split; assumption].
  - exists false, w, []. rewrite (loop_late f deadline target tol w Hc).
    split; [reflexivity|]. split; [reflexivity|]. split; [reflexivity|].
    split; [apply passes_refl|]. split; [reflexivity|].
    split; [intros _; lia|discriminate].
Qed.

(** A wait that times out leaves the loop with the answer [False]. *)
Lemma loop_timeout_breaks (f : nat) (deadline target tol : Z) (w w2 : World) :
  clock w < deadline ->
  wait_for_height_updated (deadline - clock w) (snd (clear_height_updated w))
    = (Raise TimeoutError, w2) ->
  move_loop (S f) deadline target tol w = (Return false, w2).
Proof.
  intros Hc Hw. cbn [move_loop]. unfold bind, monotonic.
  destruct (Z.ltb_spec (clock w) deadline) as [_|]; [|lia].
  destruct (clear_height_updated w) as [r wc] eqn:Ec.
  unfold clear_height_updated in Ec. injection Ec as <- <-.
  cbn [snd] in Hw. change (clock (set_desk _ w)) with (clock w).
  unfold clear_height_updated in Hw. rewrite Hw. reflexivity.
Qed.

(** *** The move controller *)

Lemma write_gatt_char_spec (cmd : list Z) (w : World) :
  link_up w = true ->
  let w1 := snd (write_gatt_char cmd w) in
  write_gatt_char cmd w = (Return tt, w1) /\
  sent w1 = sent w ++ [cmd] /\
  dialogs w1 = dialogs w /\
  clock w1 = Z.max (clock w) (clock w + write_delay w) /\
  match inbox w1 with
  | (a, _) :: _ => clock w1 < a
  | [] => True
  end /\
  exists ps, passes w w1 ps.
Proof.
  intros Hl. unfold write_gatt_char. rewrite Hl. cbn [snd].
  destruct (sleep_until_spec (clock w + write_delay w) w)
    as (Hc & Hs & Hd & Hh & ps & P).
  cbn [sent dialogs clock inbox].
  split; [reflexivity|]. split; [now rewrite Hs|]. split; [exact Hd|].
  split; [exact Hc|]. split; [exact Hh|].
  exists ps. unfold passes in *. cbn. exact P.
Qed.

Lemma write_gatt_char_fails (cmd : list Z) (w : World) :
  link_up w = false ->
  fst (write_gatt_char cmd w) = Raise BleakError /\
  sent (snd (write_gatt_char cmd w)) = sent w.
Proof.
  intros Hl. unfold write_gatt_char. rewrite Hl. cbn [fst snd].
  split; [reflexivity|]. apply sleep_until_spec.
Qed.

Lemma after_write_spec (target : Z) (w : World) :
  link_up w = true ->
  write_gatt_char (frame (clamp_mm target)) w = (Return tt, after_write target w) /\
  sent (after_write target w) = sent w ++ [frame (clamp_mm target)] /\
  clock (after_write target w) = Z.max (clock w) (clock w + write_delay w).
Proof.
  intros Hl.
  destruct (write_gatt_char_spec (frame (clamp_mm target)) w Hl)
    as (Ew & Hs & _ & Hc & _).
  unfold after_write. rewrite build_move_packet_returns.
  split; [exact Ew|]. split; [exact Hs|exact Hc].
Qed.

Lemma window_in (deadline : Z) (q : list (Z * list byte)) (x : Z * list byte) :
  In x (window deadline q) -> fst x < deadline /\ In x q.
Proof.
  induction q as [|[a data] q IH]; cbn [window]; [intros []|].
  destruct (Z.ltb_spec a deadline) as [Ha|Ha]; [|intros []].
  intros [<-|Hin]; [split; [exact Ha|now left]|].
  destruct (IH Hin) as [H1 H2]. split; [exact H1|now right].
Qed.

(** Where the heights read at the wake-ups come from: each is the reading of
    a notification that arrives no later than the deadline, with all the
    queue before it. *)
Lemma observations_in (deadline : Z) (q : list (Z * list byte)) :
  forall (now : Z) (seen : option Z) (h : Z),
    now <= deadline ->
    In h (observations deadline q now seen) ->
    seen = Some h \/
    exists a data, In (a, data) (window (deadline + 1) q) /\ reading data = Some h.
Proof.
  induction q as [|[a data] q IH]; intros now seen h Hnow; cbn [observations window].
  { destruct seen as [h0|]; [|intros []]. intros [<-|[]]. now left. }
  assert (Hlater : forall now' seen', now' <= deadline -> a <= deadline ->
            In h (observations deadline q now' seen') ->
            seen' = Some h \/
            exists a0 data0,
              In (a0, data0) (if a <? deadline + 1
                              then (a, data) :: window (deadline + 1) q else []) /\
              reading data0 = Some h).
  { intros now' seen' Hn' Ha Hin.
    destruct (Z.ltb_spec a (deadline + 1)); [|lia].
    destruct (IH now' seen' h Hn' Hin) as [E|(a0 & data0 & Hin0 & Hr0)]; [now left|].
    right. exists a0, data0. split; [now right|exact Hr0]. }
  assert (Hhere : a <= deadline -> reading data = Some h ->
            exists a0 data0,
              In (a0, data0) (if a <? deadline + 1
                              then (a, data) :: window (deadline + 1) q else []) /\
              reading data0 = Some h).
  { intros Ha Hr. destruct (Z.ltb_spec a (deadline + 1)); [|lia].
    exists a, data. split; [now left|exact Hr]. }
  destruct seen as [h0|].
  - destruct (Z.leb_spec a now) as [Ha|Ha].
    + intros Hin.
      destruct (Hlater _ _ Hnow ltac:(lia) Hin) as [E|R]; [|now right].
      destruct (reading data) as [r|] eqn:Hr; [|now left].
      right. apply Hhere; [lia|congruence].
    + intros [<-|Hin]; [now left|].
      destruct (Z.ltb_spec now deadline) as [_|_]; [|destruct Hin].
      destruct (Z.leb_spec a deadline) as [Had|_]; [|destruct Hin].
      destruct (Hlater (Z.max now a) (reading data) ltac:(lia) Had Hin)
      as [E|R]; [|now right].
      right. now apply Hhere.
  - destruct (Z.leb_spec a deadline) as [Had|_]; [|intros []].
    intros Hin.
    destruct (Hlater (Z.max now a) (reading data) ltac:(lia) Had Hin)
      as [E|R]; [|now right].
    right. now apply Hhere.
Qed.

(** A later deadline only adds wake-ups. *)
Lemma observations_grows (d d' : Z) (q : list (Z * list byte)) :
  d <= d' ->
  forall (now : Z) (seen : option Z) (h : Z),
    In h (observations d q now seen) -> In h (observations d' q now seen).
Proof.
  intros Hd. induction q as [|[a data] q IH]; intros now seen h; cbn [observations].
  { exact (fun H => H). }
  destruct seen as [h0|].
  - destruct (Z.leb_spec a now) as [Ha|Ha]; [apply IH|].
    intros [<-|Hin]; [now left|]. right.
    destruct (Z.ltb_spec now d) as [Hn|_]; [|destruct Hin].
    destruct (Z.leb_spec a d) as [Had|_]; [|destruct Hin].
    destruct (Z.ltb_spec now d'); [|lia].
    destruct (Z.leb_spec a d'); [|lia].
    now apply IH.
  - destruct (Z.leb_spec a d) as [Had|_]; [|intros []].
    destruct (Z.leb_spec a d'); [|lia].
    apply IH.
Qed.

Lemma existsb_within (target tol : Z) (hs : list Z) :
  existsb (within target tol) hs = true <->
  exists h, In h hs /\ Z.abs (h - target) <= tol.
Proof.
  rewrite existsb_exists. unfold within.
  split; intros (h & Hin & Hh); exists h; (split; [exact Hin|]);
    now apply Z.leb_le.
Qed.

(** [move_to] over an acknowledging link: one write, then the loop. *)
Lemma move_to_spec (target timeout tol : Z) (w : World) :
  link_up w = true ->
  let w1 := after_write target w in
  let deadline := clock w1 + timeout in
  exists (b : bool) (w' : World) (ps : list (Z * list byte)),
    move_to target timeout tol w = (Return b, w') /\
    sent w1 = sent w ++ [frame (clamp_mm target)] /\
    sent w' = sent w1 /\
    dialogs w' = dialogs w /\
    passes w w' ps /\
    b = (0 <? timeout)
        && existsb (within target tol)
             (observations deadline (inbox w1) (clock w1) None) /\
    (b = false -> clock w' = Z.max (clock w1) deadline) /\
    (b = true ->
     clock w' <= deadline /\
     exists h, _height_mm (desk w') = Some h /\ Z.abs (h - target) <= tol) /\
    (timeout <= 0 -> b = false /\ w' = w1).
Proof.
  intros Hl w1 deadline.
  destruct (write_gatt_char_spec (frame (clamp_mm target)) w Hl)
    as (Ew & Hs1 & Hd1 & Hc1 & Hh1 & ps1 & P1).
  assert (Ew1 : w1 = snd (write_gatt_char (frame (clamp_mm target)) w)).
  { unfold w1, after_write. now rewrite build_move_packet_returns. }
  rewrite <- Ew1 in *.
  assert (Em : move_to target timeout tol w
               = move_loop (S (List.length (inbox w1))) deadline target tol w1).
  { unfold move_to, bind, lift, monotonic.
    rewrite build_move_packet_returns, Ew. reflexivity. }
  destruct (move_loop_spec (inbox w1) (S (List.length (inbox w1))) deadline target tol
              w1 eq_refl (Nat.lt_succ_diag_r _))
    as (b & w' & ps & E & Hs & Hd & P & Hb & Hf & Ht).
  exists b, w', (ps1 ++ ps).
  split; [now rewrite Em|]. split; [exact Hs1|]. split; [exact Hs|].
  split; [congruence|]. split; [exact (passes_trans w w1 w' ps1 ps P1 P)|].
  split.
  { rewrite Hb. f_equal. unfold deadline.
    destruct (Z.ltb_spec (clock w1) (clock w1 + timeout));
      destruct (Z.ltb_spec 0 timeout); (reflexivity || lia). }
  split; [exact Hf|]. split; [intros Hbt; exact (proj2 (Ht Hbt))|].
  intros Hto.
  assert (Hlate : deadline <= clock w1) by (unfold deadline; lia).
  rewrite (loop_late _ deadline target tol w1 Hlate) in E.
  injection E as <- <-. split; reflexivity.
Qed.

(** What the answer [True] of [move_to] rests on: a notification that
    arrives after the acknowledgement and no later than the deadline, with
    all the queue before it, whose reading is within the tolerance. *)
Lemma move_to_true_reading (target timeout tol : Z) (w : World) :
  link_up w = true ->
  fst (move_to target timeout tol w) = Return true ->
  exists a data h,
    In (a, data) (window (clock (after_write target w) + timeout + 1)
                    (inbox (after_write target w))) /\
    reading data = Some h /\ Z.abs (h - target) <= tol.
Proof.
  intros Hl Hr.
  destruct (move_to_spec target timeout tol w Hl)
    as (b & w' & ps & E & _ & _ & _ & _ & Hb & _).
  rewrite E in Hr. cbn [fst] in Hr. injection Hr as ->.
  symmetry in Hb. apply andb_true_iff in Hb as [Hto Hb].
  apply Z.ltb_lt in Hto.
  apply existsb_within in Hb as (h & Hin & Hh).
  apply observations_in in Hin as [E0|(a & data & Hw & Hrd)];
    [discriminate E0| |lia].
  exists a, data, h. split; [exact Hw|]. split; [exact Hrd|exact Hh].
Qed.

(** [move_to] always returns or raises: its loop never runs out of fuel. *)
Lemma move_to_returns (target timeout tol : Z) (w : World) :
  fst (move_to target timeout tol w) <> Diverged.
Proof.
  destruct (link_up w) eqn:Hl.
  - destruct (move_to_spec target timeout tol w Hl) as (b & w' & ps & E & _).
    rewrite E. discriminate.
  - unfold move_to, bind, lift. rewrite build_move_packet_returns.
    unfold write_gatt_char. rewrite Hl. discriminate.
Qed.

(** A failed write is fatal for the call: the exception propagates, nothing
    is logged as sent and the loop is not entered. *)
Lemma move_to_link_down (target timeout tol : Z) (w : World) :
  link_up w = false ->
  fst (move_to target timeout tol w) = Raise BleakError /\
  sent (snd (move_to target timeout tol w)) = sent w.
Proof.
  intros Hl.
  destruct (write_gatt_char_fails (frame (clamp_mm target)) w Hl) as [Hf Hs].
  unfold move_to, bind, lift. rewrite build_move_packet_returns.
  destruct (write_gatt_char (frame (clamp_mm target)) w) as [r w1].
  cbn [fst snd] in Hf, Hs. subst r. cbn [fst snd]. split; [reflexivity|exact Hs].
Qed.

(** C3, as the code has it. Over a link that acknowledges the write,
    [move_to] writes the encoded command once and returns. Its deadline is
    the time at which the awaited write has returned, plus the timeout.
    After each wait that a reading ends, the caller resumes once every
    notification that had arrived by then has been handled, and compares
    the height tracked at that moment with the target: the call returns
    [True] if and only if the timeout is positive and one of the heights so
    read is within the tolerance. Each of them is the reading of a
    notification that arrives after the acknowledgement and no later than
    the deadline, with all the queue before it; so no reading within the
    tolerance among these means [False], and a single notification in time
    and within the tolerance means [True]. On [True] the call returns no
    later than the deadline, with the tracked height [Known] and within the
    tolerance; on [False] it returns at the deadline (or at once if the
    deadline has passed). A wait that times out ends the loop with
    [False]. *)
Theorem move_to_sends_once_and_converges (target timeout tol : Z) (w : World) :
  link_up w = true ->
  let w1 := after_write target w in
  let deadline := clock w1 + timeout in
  exists (b : bool) (w' : World),
    move_to target timeout tol w = (Return b, w') /\
    sent w' = sent w ++ [frame (clamp_mm target)] /\
    clock w1 = Z.max (clock w) (clock w + write_delay w) /\
    b = (0 <? timeout)
        && existsb (within target tol)
             (observations deadline (inbox w1) (clock w1) None) /\
    (forall h, In h (observations deadline (inbox w1) (clock w1) None) ->
       exists a data,
         In (a, data) (window (deadline + 1) (inbox w1)) /\ a <= deadline /\
         reading data = Some h) /\
    (Forall (fun x => in_tolerance target tol (snd x) = false)
       (window (deadline + 1) (inbox w1)) -> b = false) /\
    (forall a data h,
        inbox w1 = [(a, data)] -> a <= deadline -> 0 < timeout ->
        reading data = Some h -> Z.abs (h - target) <= tol -> b = true) /\
    (b = true ->
     clock w' <= deadline /\
     exists h, height_mm (desk w') = Some h /\ Z.abs (h - target) <= tol) /\
    (b = false -> clock w' = Z.max (clock w1) deadline) /\
    (forall (f : nat) (v v2 : World),
        clock v < deadline ->
        wait_for_height_updated (deadline - clock v) (snd (clear_height_updated v))
          = (Raise TimeoutError, v2) ->
        move_loop (S f) deadline target tol v = (Return false, v2)).
Proof.
  intros Hl w1 deadline.
  destruct (move_to_spec target timeout tol w Hl)
    as (b & w' & ps & E & Hs1 & Hs & _ & _ & Hb & Hf & Ht & Hz).
  fold w1 in Hs1, Hs, Hb, Hf. fold deadline in Hb, Hf, Ht.
  assert (Hprov : forall h,
             In h (observations deadline (inbox w1) (clock w1) None) ->
             exists a data,
               In (a, data) (window (deadline + 1) (inbox w1)) /\ a <= deadline /\
               reading data = Some h).
  { intros h Hin.
    destruct (Z.le_gt_cases (clock w1) deadline) as [Hle|Hgt].
    - destruct (observations_in _ _ _ _ h Hle Hin)
        as [E0|(a & data & Hw & Hr)]; [discriminate E0|].
      exists a, data. split; [exact Hw|]. split; [|exact Hr].
      pose proof (proj1 (window_in _ _ _ Hw)) as Ha. cbn [fst] in Ha. lia.
    - exfalso. destruct (write_gatt_char_spec (frame (clamp_mm target)) w Hl)
        as (_ & _ & _ & _ & Hh1 & _).
      assert (Ew1 : w1 = snd (write_gatt_char (frame (clamp_mm target)) w)).
      { unfold w1, after_write. now rewrite build_move_packet_returns. }
      rewrite <- Ew1 in Hh1.
      destruct (inbox w1) as [|[a data] q]; [destruct Hin|].
      cbn [observations] in Hin.
      destruct (Z.leb_spec a deadline); [lia|destruct Hin]. }
  exists b, w'.
  split; [exact E|]. split; [congruence|].
  split; [exact (proj2 (proj2 (after_write_spec target w Hl)))|].
  split; [exact Hb|]. split; [exact Hprov|]. split.
  { intros Hall. destruct b; [|reflexivity]. exfalso.
    symmetry in Hb. apply andb_true_iff in Hb as [_ Hb].
    apply existsb_within in Hb as (h & Hin & Hh).
    destruct (Hprov h Hin) as (a & data & Hw & _ & Hr).
    rewrite Forall_forall in Hall. specialize (Hall _ Hw). cbn [snd] in Hall.
    rewrite (in_tolerance_accepted target tol data h Hr) in Hall.
    apply Z.leb_gt in Hall. lia. }
  split.
  { intros a data h Hq Ha Hto Hr Hh. rewrite Hb, Hq. cbn [observations].
    destruct (Z.ltb_spec 0 timeout); [|lia].
    destruct (Z.leb_spec a deadline); [|lia].
    rewrite Hr. cbn [existsb andb orb]. unfold within.
    destruct (Z.leb_spec (Z.abs (h - target)) tol); [reflexivity|lia]. }
  split; [exact Ht|]. split; [exact Hf|].
  intros f v v2. apply loop_timeout_breaks.
Qed.

Lemma move_to_sends_once_and_converges_witness :
  link_up rising_world = true /\
  exists (b : bool) (w' : World),
    move_to 1300 30000 10 rising_world = (Return b, w') /\
    sent w' = sent rising_world ++ [frame (clamp_mm 1300)].
Proof.
  split; [reflexivity|].
  destruct (move_to_sends_once_and_converges 1300 30000 10 rising_world eq_refl)
    as (b & w' & E & Hs & _).
  exists b, w'. split; [exact E|exact Hs].
Defined.

(** C3, as it is stated, fails in both directions. The desk of
    [burst_world] reports 1300 mm and 900 mm in one burst 100 ms after the
    call: the first is an accepted update, well before the deadline, that
    makes the tracked height [Known] and equal to the target, yet the call
    resumes after the second, reads 900 mm and answers [False] at its
    deadline. The desk of [settled_world] reports 1300 mm 500 ms after a
    call whose timeout is 480 ms: no update comes before the time of the
    call plus the timeout, yet the call answers [True], because the deadline
    counts from the acknowledgement of the write, 20 ms later, and a reading
    that arrives on the deadline still ends the wait. *)
Lemma move_to_reads_the_height_on_resuming :
  (In (100, payload "1300") (inbox burst_world) /\
   clock burst_world < 100 < clock burst_world + 30000 /\
   height_mm (_on_height (desk burst_world) (payload "1300")) = Some 1300 /\
   fst (move_to 1300 30000 10 burst_world) = Return false /\
   clock (snd (move_to 1300 30000 10 burst_world)) = 30020 /\
   height_mm (desk (snd (move_to 1300 30000 10 burst_world))) = Some 900) /\
  (Forall (fun x => clock settled_world + 480 <= fst x) (inbox settled_world) /\
   fst (move_to 1300 480 10 settled_world) = Return true /\
   clock (snd (move_to 1300 480 10 settled_world)) = 1500) /\
  ~ (forall (target timeout tol : Z) (w : World),
        link_up w = true ->
        (fst (move_to target timeout tol w) = Return true <->
         exists a data h,
           In (a, data) (inbox w) /\ clock w < a < clock w + timeout /\
           reading data = Some h /\ Z.abs (h - target) <= tol)).
Proof.
  split.
  { split; [now left|]. split; [cbn; lia|]. split; [reflexivity|].
    split; [|split]; vm_compute; reflexivity. }
  split.
  { split; [repeat constructor; cbn; lia|].
    split; vm_compute; reflexivity. }
  intros H.
  destruct (H 1300 30000 10 burst_world eq_refl) as [_ H2].
  assert (E : fst (move_to 1300 30000 10 burst_world) = Return true).
  { apply H2. exists 100, (payload "1300"), 1300.
    split; [now left|]. split; [cbn; lia|]. split; [reflexivity|cbn; lia]. }
  vm_compute in E. discriminate E.
Qed.

(** The run of the sample world: the reading of 900 mm is out of tolerance,
    the noise wakes nobody, the reading of 1300 mm ends the call after five
    seconds; with a timeout of three seconds the call gives up at the
    deadline, 3020 ms. *)
Example move_to_rising_world :
  fst (move_to 1300 30000 10 rising_world) = Return true /\
  clock (snd (move_to 1300 30000 10 rising_world)) = 5000 /\
  sent (snd (move_to 1300 30000 10 rising_world)) = [[0xA6; 0xA8; 0x01; 5; 20; 0; 0; 16; 0xFF]] /\
  fst (move_to 1300 3000 10 rising_world) = Return false /\
  clock (snd (move_to 1300 3000 10 rising_world)) = 3020.
Proof. vm_compute. repeat split. Qed.

(** C10. With a timeout of zero or less, over a link that acknowledges the
    write, [move_to] writes the one command and returns [False] in the state
    the acknowledged write left: the loop is not entered, whatever the
    tracked height is. *)
Theorem move_to_without_time (target timeout tol : Z) (w : World) :
  timeout <= 0 -> link_up w = true ->
  move_to target timeout tol w = (Return false, after_write target w) /\
  write_gatt_char (frame (clamp_mm target)) w = (Return tt, after_write target w) /\
  sent (after_write target w) = sent w ++ [frame (clamp_mm target)].
Proof.
  intros Hto Hl.
  destruct (move_to_spec target timeout tol w Hl)
    as (b & w' & ps & E & Hs1 & _ & _ & _ & _ & _ & _ & Hz).
  destruct (Hz Hto) as [-> ->].
  split; [exact E|]. split; [|exact Hs1].
  exact (proj1 (after_write_spec target w Hl)).
Qed.

Lemma move_to_without_time_witness :
  0 <= 0 /\ link_up settled_world = true /\
  height_mm (desk settled_world) = Some 1300 /\
  fst (move_to 1300 0 10 settled_world) = Return false /\
  sent (snd (move_to 1300 0 10 settled_world)) = [frame 1300].
Proof.
  split; [lia|]. split; [reflexivity|]. split; [reflexivity|].
  destruct (move_to_without_time 1300 0 10 settled_world (Z.le_refl 0) eq_refl)
    as (E & _ & Hs).
  rewrite E. cbn [fst snd]. split; [reflexivity|]. exact Hs.
Defined.

Lemma clamp_mm_idem (t : Z) : clamp_mm (clamp_mm t) = clamp_mm t.
Proof. apply clamp_mm_id, clamp_mm_range. Qed.

(** C2, as the code has it. [move_to] clamps the target only inside the
    command it writes: the call for a target and the call for the clamped
    target write the same frame and leave the same state after the
    acknowledgement, so [move_to(9999)] and [move_to(1300)] send the same
    command. The loop compares the tracked height with the target as it was
    requested: when the call for [target] returns [True], the tracked height
    is within the tolerance of [target] itself, and when the call for the
    clamped target does, within the tolerance of the clamped target. A
    target that no four-digit reading can come within the tolerance of is
    never reached. A target already in [650, 1300] is its own clamp. *)
Theorem move_to_clamps_command_only (target timeout tol : Z) (w : World) :
  link_up w = true ->
  let w1 := after_write target w in
  after_write (clamp_mm target) w = w1 /\
  sent w1 = sent w ++ [frame (clamp_mm target)] /\
  sent (snd (move_to target timeout tol w))
    = sent (snd (move_to (clamp_mm target) timeout tol w)) /\
  (fst (move_to target timeout tol w) = Return true ->
   exists h,
     height_mm (desk (snd (move_to target timeout tol w))) = Some h /\
     Z.abs (h - target) <= tol) /\
  (fst (move_to (clamp_mm target) timeout tol w) = Return true ->
   exists h,
     height_mm (desk (snd (move_to (clamp_mm target) timeout tol w))) = Some h /\
     Z.abs (h - clamp_mm target) <= tol) /\
  (9999 + tol < target -> fst (move_to target timeout tol w) = Return false) /\
  (650 <= target <= 1300 -> clamp_mm target = target).
Proof.
  intros Hl w1.
  assert (Ea : after_write (clamp_mm target) w = w1).
  { unfold w1, after_write. rewrite !build_move_packet_returns.
    now rewrite clamp_mm_idem. }
  pose proof (move_to_true_reading target timeout tol w Hl) as Hrd.
  destruct (move_to_spec target timeout tol w Hl)
    as (b & w' & ps & E & Hs1 & Hs & _ & _ & _ & _ & Ht & _).
  destruct (move_to_spec (clamp_mm target) timeout tol w Hl)
    as (b2 & w2 & ps2 & E2 & _ & Hs2 & _ & _ & _ & _ & Ht2 & _).
  rewrite Ea in Hs2. fold w1 in Hs1, Hs.
  split; [exact Ea|]. split; [exact Hs1|].
  rewrite E, E2 in *. cbn [fst snd] in *.
  split; [congruence|].
  split; [intros [= ->]; exact (proj2 (Ht eq_refl))|].
  split; [intros [= ->]; exact (proj2 (Ht2 eq_refl))|].
  split; [|apply clamp_mm_id].
  intros Hfar. destruct b; [|reflexivity]. exfalso.
  destruct (Hrd eq_refl) as (a & data & h & _ & Hr & Hh).
  pose proof (reading_range data h Hr). lia.
Qed.

Lemma move_to_clamps_command_only_witness :
  link_up rising_world = true /\
  sent (snd (move_to 9999 30000 10 rising_world))
    = sent (snd (move_to (clamp_mm 9999) 30000 10 rising_world)).
Proof.
  split; [reflexivity|].
  exact (proj1 (proj2 (proj2
           (move_to_clamps_command_only 9999 30000 10 rising_world eq_refl)))).
Defined.

(** C2, as it is stated, fails: the desk of the sample world reaches 1300 mm
    after five seconds, which ends [move_to(1300, tolerance_mm=10)] with
    [True], while [move_to(9999, tolerance_mm=10)] waits for a reading near
    9999 mm and answers [False] at its deadline. *)
Lemma move_to_9999_is_not_move_to_1300 :
  fst (move_to 1300 30000 10 rising_world) = Return true /\
  fst (move_to 9999 30000 10 rising_world) = Return false /\
  sent (snd (move_to 9999 30000 10 rising_world))
    = sent (snd (move_to 1300 30000 10 rising_world)) /\
  ~ (forall (timeout : Z) (w : World),
        fst (move_to 9999 timeout 10 w) = fst (move_to 1300 timeout 10 w)).
Proof.
  split; [vm_compute; reflexivity|]. split; [vm_compute; reflexivity|].
  split; [vm_compute; reflexivity|].
  intros H. specialize (H 30000 rising_world). vm_compute in H. discriminate H.
Qed.

(** *** Order on floats *)

Ltac sf_order :=
  unfold SFltb, SFleb, SFcompare;
  repeat match goal with
  | x : spec_float |- _ => destruct x
  end;
  repeat match goal with
  | s : bool |- _ => destruct s
  end;
  try discriminate; try reflexivity; try congruence;
  rewrite ?Pos.compare_cont_spec; cbn [Pos.switch_Eq];
  repeat match goal with
  | |- context [?x ?= ?y] => destruct (Z.compare_spec x y)
  | |- context [(?x ?= ?y)%positive] => destruct (Pos.compare_spec x y)
  end;
  cbn; try discriminate; try reflexivity; try congruence; try lia.

Lemma SFltb_trans (x y z : spec_float) :
  SFltb x y = true -> SFltb y z = true -> SFltb x z = true.
Proof. sf_order. Qed.

Lemma SFltb_asym (x y : spec_float) :
  SFltb x y = true -> SFltb y x = false.
Proof. sf_order. Qed.

Lemma SFltb_below (x y z : spec_float) :
  SFltb x y = true -> SFleb z y = false -> z <> S754_nan -> SFltb x z = true.
Proof. sf_order. Qed.

Lemma float_ltb_trans (x y z : float) :
  (x <? y)%float = true -> (y <? z)%float = true -> (x <? z)%float = true.
Proof. rewrite !FloatAxioms.ltb_spec. apply SFltb_trans. Qed.

Lemma float_ltb_asym (x y : float) :
  (x <? y)%float = true -> (y <? x)%float = false.
Proof. rewrite !FloatAxioms.ltb_spec. apply SFltb_asym. Qed.

Lemma SFltb_not_leb (x y : spec_float) :
  SFltb x y = true -> SFleb y x = false.
Proof. sf_order. Qed.

Lemma float_ltb_not_leb (x y : float) :
  (x <? y)%float = true -> (y <=? x)%float = false.
Proof. rewrite FloatAxioms.ltb_spec, FloatAxioms.leb_spec. apply SFltb_not_leb. Qed.

(** Below something that is not at least 2 means below 2. *)
Lemma float_ltb_below_2 (x y : float) :
  (x <? y)%float = true -> (2 <=? y)%float = false -> (x <? 2)%float = true.
Proof.
  rewrite !FloatAxioms.ltb_spec, FloatAxioms.leb_spec. intros H1 H2.
  apply (SFltb_below _ _ _ H1 H2). vm_compute. discriminate.
Qed.

(** *** The startup rule of the scheduler *)

Lemma startup_not_near_stand (h sit stand : float) :
  within_2cm h stand = false ->
  (closer_to h sit stand = true ->
   startup_next_is_stand (Some h) sit stand = true) /\
  (closer_to h stand sit = true ->
   startup_next_is_stand (Some h) sit stand = false).
Proof.
  unfold within_2cm, closer_to, startup_next_is_stand. intros Hs. rewrite Hs.
  destruct (2 <=? abs (h - sit))%float eqn:Hfar.
  - split; [intros ->; reflexivity|]. apply float_ltb_asym.
  - split; [reflexivity|]. intros Hc.
    rewrite (float_ltb_below_2 _ _ Hc Hfar) in Hs. discriminate.
Qed.

(** C7. When [_auto] starts: if the height is known and within 2.0 cm of the
    stand preset, the first action targets the sit preset. Otherwise, if the
    height is within 2.0 cm of the sit preset or farther than 2.0 cm from
    both presets (indeed in every other case of a known height), the first
    action targets the preset opposite the one the height is closer to; and
    within 2.0 cm of the sit preset that is the stand preset. If the height
    is unknown, the first action targets the stand preset. Distances are the
    ones the code computes, in binary64. *)
Theorem startup_first_target (d : Desk) (sit stand : float) :
  (forall h : float,
      height_cm d = Some h -> within_2cm h stand = true ->
      first_target d sit stand = sit) /\
  (forall h : float,
      height_cm d = Some h -> within_2cm h stand = false ->
      within_2cm h sit = true
      \/ (farther_than_2cm h sit = true /\ farther_than_2cm h stand = true) ->
      (closer_to h sit stand = true -> first_target d sit stand = stand) /\
      (closer_to h stand sit = true -> first_target d sit stand = sit)) /\
  (forall h : float,
      height_cm d = Some h -> within_2cm h stand = false ->
      (closer_to h sit stand = true -> first_target d sit stand = stand) /\
      (closer_to h stand sit = true -> first_target d sit stand = sit) /\
      (within_2cm h sit = true -> first_target d sit stand = stand)) /\
  (height_mm d = None ->
   height_cm d = None /\ first_target d sit stand = stand).
Proof.
  assert (G : forall h : float,
      height_cm d = Some h -> within_2cm h stand = false ->
      (closer_to h sit stand = true -> first_target d sit stand = stand) /\
      (closer_to h stand sit = true -> first_target d sit stand = sit) /\
      (within_2cm h sit = true -> first_target d sit stand = stand)).
  { intros h Hh Hs. unfold first_target. rewrite Hh.
    destruct (startup_not_near_stand h sit stand Hs) as [H1 H2].
    split; [intros Hc; now rewrite (H1 Hc)|].
    split; [intros Hc; now rewrite (H2 Hc)|].
    unfold within_2cm in *. unfold startup_next_is_stand. rewrite Hs.
    intros Hn. now rewrite (float_ltb_not_leb _ _ Hn). }
  split.
  { intros h Hh Hs. unfold first_target, startup_next_is_stand. rewrite Hh.
    unfold within_2cm in Hs. rewrite Hs. reflexivity. }
  split.
  { intros h Hh Hs _. destruct (G h Hh Hs) as (H1 & H2 & _). split; assumption. }
  split; [exact G|].
  unfold height_mm, first_target, height_cm. intros ->. split; reflexivity.
Qed.

(** The startup rule on the default presets, 73 cm and 105 cm: at 104 cm the
    desk stands, so it will sit; at 74.5 cm and at 80 cm it sits, so it will
    stand; at 95 cm it is nearer to standing, so it will sit; with no reading
    yet it will stand. Between presets of 73 cm and 74 cm, at 73.5 cm, it is
    within 2.0 cm of both, and the stand preset decides: it will sit. *)
Example startup_examples :
  first_target {| _height_mm := Some 1040; _height_updated := Event_new |} 73 105 = 73%float /\
  first_target {| _height_mm := Some 745; _height_updated := Event_new |} 73 105 = 105%float /\
  first_target {| _height_mm := Some 800; _height_updated := Event_new |} 73 105 = 105%float /\
  first_target {| _height_mm := Some 950; _height_updated := Event_new |} 73 105 = 73%float /\
  first_target Desk_init 73 105 = 105%float /\
  first_target {| _height_mm := Some 735; _height_updated := Event_new |} 73 74 = 73%float.
Proof. vm_compute. repeat split. Qed.

Lemma startup_first_target_witness :
  (height_cm {| _height_mm := Some 1040; _height_updated := Event_new |} = Some 104%float /\
   within_2cm 104 105 = true /\
   first_target {| _height_mm := Some 1040; _height_updated := Event_new |} 73 105 = 73%float) /\
  (height_cm {| _height_mm := Some 800; _height_updated := Event_new |} = Some 80%float /\
   within_2cm 80 105 = false /\ farther_than_2cm 80 73 = true /\
   farther_than_2cm 80 105 = true /\ closer_to 80 73 105 = true /\
   first_target {| _height_mm := Some 800; _height_updated := Event_new |} 73 105 = 105%float) /\
  (height_mm Desk_init = None /\ first_target Desk_init 73 105 = 105%float).
Proof.
  split; [|split].
  - split; [reflexivity|]. split; [reflexivity|].
    exact (proj1 (startup_first_target
                    {| _height_mm := Some 1040; _height_updated := Event_new |} 73 105)
             104%float eq_refl eq_refl).
  - split; [reflexivity|]. split; [reflexivity|]. split; [reflexivity|].
    split; [reflexivity|]. split; [reflexivity|].
    exact (proj1 (proj1 (proj2 (startup_first_target
                    {| _height_mm := Some 800; _height_updated := Event_new |} 73 105))
             80%float eq_refl eq_refl (or_intror (conj eq_refl eq_refl))) eq_refl).
  - split; [reflexivity|].
    exact (proj2 (proj2 (proj2 (proj2 (startup_first_target Desk_init 73 105))) eq_refl)).
Defined.

(** *** The scheduler loop *)

Lemma wait_for_stop_spec (timeout : Z) (w : World) :
  let w1 := snd (wait_for_stop timeout w) in
  (wait_for_stop timeout w = (Return tt, w1) /\ stop_is_set w1 = true
   \/ wait_for_stop timeout w = (Raise TimeoutError, w1)) /\
  sent w1 = sent w /\
  exists ps, passes w w1 ps.
Proof.
  unfold wait_for_stop. destruct (stop_is_set w) eqn:Hs.
  { cbn [snd]. split; [left; split; [reflexivity|exact Hs]|].
    split; [reflexivity|]. exists []. apply passes_refl. }
  destruct (timeout <=? 0).
  { cbn [snd]. split; [right; reflexivity|].
    split; [reflexivity|]. exists []. apply passes_refl. }
  unfold stop_is_set in Hs.
  destruct (stop_at w) as [s|] eqn:Hat.
  - apply Z.leb_gt in Hs.
    destruct (s <? clock w + timeout); cbn [snd].
    + destruct (sleep_until_spec s w) as (Hc & Hsn & _ & _ & ps & P).
      split; [|split; [exact Hsn|exists ps; exact P]].
      left. split; [reflexivity|]. unfold stop_is_set.
      destruct P as (_ & -> & _). rewrite Hat, Hc. apply Z.leb_le. lia.
    + destruct (sleep_until_spec (clock w + timeout) w) as (_ & Hsn & _ & _ & ps & P).
      split; [right; reflexivity|]. split; [exact Hsn|exists ps; exact P].
  - cbn [snd].
    destruct (sleep_until_spec (clock w + timeout) w) as (_ & Hsn & _ & _ & ps & P).
    split; [right; reflexivity|]. split; [exact Hsn|exists ps; exact P].
Qed.

(** The interval wait is cut short exactly when the signal is due in it. *)
Lemma wait_for_stop_fires (timeout : Z) (w : World) :
  stop_is_set w = false ->
  (fst (wait_for_stop timeout w) = Return tt <->
   exists s, stop_at w = Some s /\ clock w < s < clock w + timeout).
Proof.
  intros Hs. unfold wait_for_stop. rewrite Hs. unfold stop_is_set in Hs.
  destruct (Z.leb_spec timeout 0) as [Ht|Ht].
  { cbn [fst]. split; [discriminate|]. intros (s & _ & H). lia. }
  destruct (stop_at w) as [s|].
  - apply Z.leb_gt in Hs.
    destruct (Z.ltb_spec s (clock w + timeout)) as [Hlt|Hge]; cbn [fst].
    + split; [intros _; exists s; split; [reflexivity|lia]|reflexivity].
    + split; [discriminate|]. intros (s' & [= <-] & H). lia.
  - cbn [fst]. split; [discriminate|]. intros (s & Hn & _). discriminate.
Qed.

(** A run of [_notify] returns or raises, which only the plain notification
    can do. *)
Lemma notify_run_spec (countdown : Z) (w : World) :
  let w0 := snd (_notify_run countdown w) in
  ((exists skipped, fst (fst (_notify_run countdown w)) = Return skipped) \/
   countdown = 0 /\ exists e, fst (fst (_notify_run countdown w)) = Raise e) /\
  clock w0 = clock w /\ inbox w0 = inbox w /\ desk w0 = desk w /\
  stop_at w0 = stop_at w /\ link_up w0 = link_up w /\
  write_delay w0 = write_delay w /\ sent w0 = sent w /\
  (dialogs w0 = dialogs w \/ exists x, dialogs w = x :: dialogs w0).
Proof.
  unfold _notify_run. destruct (dialogs w) as [|[e|skip open] ds] eqn:Hd.
  - cbn [fst snd]. rewrite Hd. split; [left; now exists false|].
    repeat split; try reflexivity. now left.
  - destruct (Z.eqb_spec countdown 0) as [->|Hc];
      cbn [fst snd set_dialogs clock inbox desk stop_at link_up write_delay
           sent dialogs];
      (split; [(left; now exists false) || (right; split; [reflexivity|now exists e])|]);
      repeat split; try reflexivity; right; now exists (Failed e).
  - destruct (Z.eqb_spec countdown 0) as [->|Hc].
    + destruct (open <=? seconds 5);
        cbn [fst snd set_dialogs clock inbox desk stop_at link_up write_delay
             sent dialogs];
        (split; [(left; now exists false)
                 || (right; split; [reflexivity|now exists TimeoutExpired])|]);
        repeat split; try reflexivity; right; now exists (Ran skip open).
    + destruct (open <=? seconds (countdown + 5));
        cbn [fst snd set_dialogs clock inbox desk stop_at link_up write_delay
             sent dialogs];
        (split; [left; eexists; reflexivity|]);
        repeat split; try reflexivity; right; now exists (Ran skip open).
Qed.

(** The notification run in a thread: the answer, or what the plain
    notification raises; nothing is written to the link. *)
Lemma notify_spec (countdown : Z) (w : World) :
  let w2 := snd (_notify countdown w) in
  ((exists skipped, _notify countdown w = (Return skipped, w2)) \/
   countdown = 0 /\ exists e, _notify countdown w = (Raise e, w2)) /\
  sent w2 = sent w /\
  (dialogs w2 = dialogs w \/ exists x, dialogs w = x :: dialogs w2) /\
  exists ps, passes w w2 ps.
Proof.
  unfold _notify.
  destruct (notify_run_spec countdown w)
    as (Hr & Hc & Hi & Hd & Hst & Hlu & Hwd & Hs & Hdl).
  destruct (_notify_run countdown w) as [[r t] w0]. cbn [fst snd] in *.
  destruct (sleep_until_spec (clock w + t) w0) as (_ & Hsn & Hdn & _ & ps & P).
  split.
  { destruct Hr as [[skipped ->]|[Hz [e ->]]];
      [left; now exists skipped|right; split; [exact Hz|now exists e]]. }
  split; [congruence|]. split; [now rewrite Hdn|].
  exists ps. unfold passes in *.
  destruct P as (P1 & P2 & P3 & P4 & P5 & P6).
  split; [lia|]. split; [congruence|]. split; [congruence|].
  split; [congruence|]. split; congruence.
Qed.

(** The notification run by the coroutine itself: the same, and meanwhile
    the event loop stands still, so that nothing leaves the queue. *)
Lemma notify_blocking_spec (countdown : Z) (w : World) :
  let w2 := snd (_notify_blocking countdown w) in
  ((exists skipped, _notify_blocking countdown w = (Return skipped, w2)) \/
   countdown = 0 /\ exists e, _notify_blocking countdown w = (Raise e, w2)) /\
  sent w2 = sent w /\
  (dialogs w2 = dialogs w \/ exists x, dialogs w = x :: dialogs w2) /\
  inbox w2 = inbox w /\ desk w2 = desk w /\
  passes w w2 [].
Proof.
  unfold _notify_blocking.
  destruct (notify_run_spec countdown w)
    as (Hr & Hc & Hi & Hd & Hst & Hlu & Hwd & Hs & Hdl).
  destruct (_notify_run countdown w) as [[r t] w0]. cbn [fst snd] in *.
  split.
  { destruct Hr as [[skipped ->]|[Hz [e ->]]];
      [left; now exists skipped|right; split; [exact Hz|now exists e]]. }
  cbn [sent dialogs inbox desk set_time].
  split; [exact Hs|]. split; [exact Hdl|]. split; [exact Hi|]. split; [exact Hd|].
  unfold passes. cbn [clock stop_at link_up write_delay inbox desk set_time app map].
  split; [lia|]. split; [exact Hst|]. split; [exact Hlu|]. split; [exact Hwd|].
  split; [now rewrite Hi|]. now rewrite Hd.
Qed.

(** A move of the scheduler that returns has written the frame of its target. *)
Lemma move_to_cm_sent (target_cm : float) (timeout tol : Z) (w w' : World) (ok : bool) :
  move_to_cm target_cm timeout tol w = (Return ok, w') ->
  exists mm,
    int_of_float (target_cm * 10)%float = Return mm /\
    move_to mm timeout tol w = (Return ok, w') /\
    sent w' = sent w ++ [frame (clamp_mm mm)].
Proof.
  unfold move_to_cm, bind, lift.
  destruct (int_of_float (target_cm * 10)%float) as [mm| |]; try discriminate.
  intros Hm. exists mm. split; [reflexivity|]. split; [exact Hm|].
  destruct (link_up w) eqn:Hl.
  - destruct (move_to_spec mm timeout tol w Hl) as (b & w2 & ps & E & Hs1 & Hs & _).
    rewrite E in Hm. injection Hm as <- <-. congruence.
  - destruct (move_to_link_down mm timeout tol w Hl) as [Hf _].
    rewrite Hm in Hf. discriminate.
Qed.

(** C6. In a pass of the loop of [_auto] that is not cancelled (the interval
    wait times out and the signal is not set when the countdown ends): if the
    user skipped, nothing is written to the link and the next pass starts
    with the same [next_is_stand]; if not, [move_to_cm] is called on the
    stand preset when [next_is_stand] holds and on the sit preset when it
    does not, writing its frame and no other, and whatever it answers
    ([True] for reached, [False] for timed out), once the outcome has been
    notified the next pass starts with [next_is_stand] flipped. A
    notification that raises ends the pass with its exception. *)
Theorem auto_pass_skip_or_move (fuel : nat) (sit stand : float)
    (interval countdown : Z) (next_is_stand skipped : bool) (w w1 w2 : World) :
  wait_for_stop (seconds interval) w = (Raise TimeoutError, w1) ->
  _notify countdown w1 = (Return skipped, w2) ->
  stop_is_set w2 = false ->
  (skipped = true ->
   auto_body sit stand interval countdown next_is_stand w
     = (Return (Again, next_is_stand), w2) /\
   sent w2 = sent w /\
   auto_loop (S fuel) sit stand interval countdown next_is_stand w
     = auto_loop fuel sit stand interval countdown next_is_stand w2) /\
  (skipped = false ->
   forall (ok : bool) (w3 : World),
     move_to_cm (if next_is_stand then stand else sit)
       default_timeout default_tolerance_mm w2 = (Return ok, w3) ->
     (exists mm,
         int_of_float ((if next_is_stand then stand else sit) * 10)%float
           = Return mm /\
         sent w3 = sent w ++ [frame (clamp_mm mm)]) /\
     (forall (r : bool) (w4 : World),
         _notify_blocking 0 w3 = (Return r, w4) ->
         auto_body sit stand interval countdown next_is_stand w
           = (Return (Again, negb next_is_stand), w4) /\
         sent w4 = sent w3 /\
         auto_loop (S fuel) sit stand interval countdown next_is_stand w
           = auto_loop fuel sit stand interval countdown (negb next_is_stand) w4) /\
     (forall (e : exn) (w4 : World),
         _notify_blocking 0 w3 = (Raise e, w4) ->
         auto_body sit stand interval countdown next_is_stand w = (Raise e, w4) /\
         sent w4 = sent w3)).
Proof.
  intros Hw Hn H2.
  assert (H0 : stop_is_set w = false).
  { destruct (stop_is_set w) eqn:Hs; [|reflexivity].
    unfold wait_for_stop in Hw. rewrite Hs in Hw. discriminate. }
  assert (Hs2 : sent w2 = sent w).
  { destruct (wait_for_stop_spec (seconds interval) w) as (_ & S1 & _).
    destruct (notify_spec countdown w1) as (_ & S2 & _).
    rewrite Hw in S1. rewrite Hn in S2. cbn [snd] in S1, S2. congruence. }
  split.
  - intros ->.
    assert (Eb : auto_body sit stand interval countdown next_is_stand w
                 = (Return (Again, next_is_stand), w2)).
    { unfold auto_body. rewrite Hw. unfold bind. rewrite Hn, H2. reflexivity. }
    split; [exact Eb|]. split; [exact Hs2|].
    cbn [auto_loop]. rewrite H0, Eb. reflexivity.
  - intros -> ok w3 Hm.
    assert (Eb : auto_body sit stand interval countdown next_is_stand w
                 = match _notify_blocking 0 w3 with
                   | (Return _, w4) => (Return (Again, negb next_is_stand), w4)
                   | (Raise e, w4) => (Raise e, w4)
                   | (Diverged, w4) => (Diverged, w4)
                   end).
    { unfold auto_body. rewrite Hw. unfold bind at 1. rewrite Hn, H2.
      unfold bind, ret, target_of. rewrite Hm. reflexivity. }
    pose proof (notify_blocking_spec 0 w3) as (_ & S4 & _).
    split.
    + destruct (move_to_cm_sent _ _ _ _ _ _ Hm) as (mm & Hi & _ & Hs).
      exists mm. split; [exact Hi|]. now rewrite Hs, Hs2.
    + split.
      * intros r w4 Hn4. rewrite Hn4 in Eb, S4. cbn [snd] in S4.
        split; [exact Eb|]. split; [exact S4|].
        cbn [auto_loop]. rewrite H0, Eb. reflexivity.
      * intros e w4 Hn4. rewrite Hn4 in Eb, S4. cbn [snd] in S4.
        split; [exact Eb|exact S4].
Qed.

Lemma auto_pass_skip_or_move_witness :
  (fst (wait_for_stop (seconds 600) (office_world None [(true, 3000)]))
   = Raise TimeoutError /\
   auto_body 73 105 600 30 false (office_world None [(true, 3000)])
   = (Return (Again, false),
      snd (_notify 30
             (snd (wait_for_stop (seconds 600) (office_world None [(true, 3000)])))))) /\
  (fst (wait_for_stop (seconds 600) (office_world None [(false, 30000); (false, 200)]))
   = Raise TimeoutError /\
   fst (auto_body 73 105 600 30 false (office_world None [(false, 30000); (false, 200)]))
   = Return (Again, true) /\
   sent (snd (auto_body 73 105 600 30 false
                (office_world None [(false, 30000); (false, 200)])))
   = [frame 730]) /\
  (fst (auto_body 73 105 600 30 true (office_world None [(false, 30000); (false, 200)]))
   = Return (Again, false) /\
   sent (snd (auto_body 73 105 600 30 true
                (office_world None [(false, 30000); (false, 200)])))
   = [frame 1050]).
Proof.
  pose (w := office_world None [(false, 30000); (false, 200)]).
  pose (w1 := snd (wait_for_stop (seconds 600) w)).
  pose (w2 := snd (_notify 30 w1)).
  split; [|split].
  - split; [reflexivity|].
    exact (proj1 (proj1
      (auto_pass_skip_or_move 0 73 105 600 30 false true
         (office_world None [(true, 3000)])
         (snd (wait_for_stop (seconds 600) (office_world None [(true, 3000)])))
         (snd (_notify 30
                 (snd (wait_for_stop (seconds 600) (office_world None [(true, 3000)])))))
         eq_refl eq_refl eq_refl) eq_refl)).
  - split; [reflexivity|].
    pose (r := move_to_cm 73 default_timeout default_tolerance_mm w2).
    assert (Hm : r = (Return true, snd r)) by (vm_compute; reflexivity).
    destruct (proj2 (auto_pass_skip_or_move 0 73 105 600 30 false false w w1 w2
                       eq_refl eq_refl eq_refl) eq_refl true (snd r) Hm)
      as ((mm & Hi & Hs) & Hr & _).
    destruct (Hr false (snd (_notify_blocking 0 (snd r))) eq_refl) as (Eb & Hs4 & _).
    fold w. rewrite Eb. cbn [fst snd]. split; [reflexivity|].
    rewrite Hs4, Hs. vm_compute in Hi. injection Hi as <-. reflexivity.
  - pose (r := move_to_cm 105 default_timeout default_tolerance_mm w2).
    assert (Hm : r = (Return false, snd r)) by (vm_compute; reflexivity).
    destruct (proj2 (auto_pass_skip_or_move 0 73 105 600 30 true false w w1 w2
                       eq_refl eq_refl eq_refl) eq_refl false (snd r) Hm)
      as ((mm & Hi & Hs) & Hr & _).
    destruct (Hr false (snd (_notify_blocking 0 (snd r))) eq_refl) as (Eb & Hs4 & _).
    fold w. rewrite Eb. cbn [fst snd]. split; [reflexivity|].
    rewrite Hs4, Hs. vm_compute in Hi. injection Hi as <-. reflexivity.
Defined.

(** C8. A pass of the loop of [_auto] in which the signal is set during the
    interval wait, or is found set once the countdown has ended, leaves the
    loop: nothing is written to the link, whatever the user answered, and
    [next_is_stand] is what it was. The interval wait is cut short exactly
    when the signal is due inside the interval. *)
Theorem auto_pass_cancelled (fuel : nat) (sit stand : float)
    (interval countdown : Z) (next_is_stand : bool) (w : World) :
  stop_is_set w = false ->
  (forall w1 : World,
      wait_for_stop (seconds interval) w = (Return tt, w1) ->
      auto_body sit stand interval countdown next_is_stand w
        = (Return (Break, next_is_stand), w1) /\
      auto_loop (S fuel) sit stand interval countdown next_is_stand w
        = (Return next_is_stand, w1) /\
      sent w1 = sent w) /\
  (forall (w1 w2 : World) (skipped : bool),
      wait_for_stop (seconds interval) w = (Raise TimeoutError, w1) ->
      _notify countdown w1 = (Return skipped, w2) ->
      stop_is_set w2 = true ->
      auto_body sit stand interval countdown next_is_stand w
        = (Return (Break, next_is_stand), w2) /\
      auto_loop (S fuel) sit stand interval countdown next_is_stand w
        = (Return next_is_stand, w2) /\
      sent w2 = sent w) /\
  (fst (wait_for_stop (seconds interval) w) = Return tt <->
   exists s, stop_at w = Some s /\ clock w < s < clock w + seconds interval).
Proof.
  intros H0. split; [|split].
  - intros w1 Hw.
    assert (Eb : auto_body sit stand interval countdown next_is_stand w
                 = (Return (Break, next_is_stand), w1)).
    { unfold auto_body. rewrite Hw. reflexivity. }
    split; [exact Eb|]. split.
    + cbn [auto_loop]. rewrite H0, Eb. reflexivity.
    + destruct (wait_for_stop_spec (seconds interval) w) as (_ & S1 & _).
      rewrite Hw in S1. exact S1.
  - intros w1 w2 skipped Hw Hn H2.
    assert (Eb : auto_body sit stand interval countdown next_is_stand w
                 = (Return (Break, next_is_stand), w2)).
    { unfold auto_body. rewrite Hw. unfold bind. rewrite Hn, H2. reflexivity. }
    split; [exact Eb|]. split.
    + cbn [auto_loop]. rewrite H0, Eb. reflexivity.
    + destruct (wait_for_stop_spec (seconds interval) w) as (_ & S1 & _).
      destruct (notify_spec countdown w1) as (_ & S2 & _).
      rewrite Hw in S1. rewrite Hn in S2. cbn [snd] in S1, S2. congruence.
  - apply wait_for_stop_fires. exact H0.
Qed.

Lemma auto_pass_cancelled_witness :
  stop_is_set (office_world (Some 300000) [(false, 30000)]) = false /\
  fst (auto_loop 1 73 105 600 30 false (office_world (Some 300000) [(false, 30000)]))
    = Return false /\
  stop_is_set (office_world (Some 610000) [(false, 30000)]) = false /\
  fst (auto_loop 1 73 105 600 30 false (office_world (Some 610000) [(false, 30000)]))
    = Return false /\
  sent (snd (auto_loop 1 73 105 600 30 false
               (office_world (Some 610000) [(false, 30000)]))) = [].
Proof.
  split; [reflexivity|].
  pose (wa := office_world (Some 300000) [(false, 30000)]).
  pose (wb := office_world (Some 610000) [(false, 30000)]).
  pose (wb1 := snd (wait_for_stop (seconds 600) wb)).
  destruct (proj1 (auto_pass_cancelled 0 73 105 600 30 false wa eq_refl)
              (snd (wait_for_stop (seconds 600) wa)) eq_refl) as (_ & Ea & _).
  destruct (proj1 (proj2 (auto_pass_cancelled 0 73 105 600 30 false wb eq_refl))
              wb1 (snd (_notify 30 wb1)) false eq_refl eq_refl eq_refl)
    as (_ & Eb & Sb).
  fold wa wb. rewrite Ea, Eb. cbn [fst snd].
  split; [reflexivity|]. split; [reflexivity|]. split; [reflexivity|exact Sb].
Defined.

(** *** The tracked height across every operation *)

Lemma move_to_passes (target timeout tol : Z) (w : World) :
  exists ps, passes w (snd (move_to target timeout tol w)) ps.
Proof.
  destruct (link_up w) eqn:Hl.
  - destruct (move_to_spec target timeout tol w Hl)
      as (b & w' & ps & E & _ & _ & _ & P & _).
    rewrite E. exists ps. exact P.
  - unfold move_to, bind, lift. rewrite build_move_packet_returns.
    unfold write_gatt_char. rewrite Hl. cbn [snd].
    apply sleep_until_spec.
Qed.

Lemma move_to_cm_passes (target_cm : float) (timeout tol : Z) (w : World) :
  exists ps, passes w (snd (move_to_cm target_cm timeout tol w)) ps.
Proof.
  unfold move_to_cm, bind, lift.
  destruct (int_of_float (target_cm * 10)%float) as [mm| |].
  - apply move_to_passes.
  - exists []. apply passes_refl.
  - exists []. apply passes_refl.
Qed.

Lemma auto_body_passes (sit stand : float) (interval countdown : Z)
    (next_is_stand : bool) (w : World) :
  exists ps,
    passes w (snd (auto_body sit stand interval countdown next_is_stand w)) ps.
Proof.
  unfold auto_body.
  destruct (wait_for_stop_spec (seconds interval) w) as ([[E _]|E] & _ & ps1 & P1);
    rewrite E; [exists ps1; exact P1|].
  set (w1 := snd (wait_for_stop (seconds interval) w)) in *.
  destruct (notify_spec countdown w1) as (_ & _ & _ & ps2 & P2).
  unfold bind at 1.
  destruct (_notify countdown w1) as [[skipped|e|] w2]; cbn [snd] in P2 |- *;
    pose proof (passes_trans w w1 w2 ps1 ps2 P1 P2) as P12;
    try (exists (ps1 ++ ps2); exact P12).
  destruct (stop_is_set w2); [exists (ps1 ++ ps2); exact P12|].
  destruct skipped; [exists (ps1 ++ ps2); exact P12|].
  destruct (move_to_cm_passes (target_of next_is_stand sit stand)
              default_timeout default_tolerance_mm w2) as (ps3 & P3).
  unfold bind, ret.
  destruct (move_to_cm (target_of next_is_stand sit stand)
              default_timeout default_tolerance_mm w2) as [[ok| |] w3];
    cbn [snd] in *;
    pose proof (passes_trans w w2 w3 _ ps3 P12 P3) as P123;
    try (exists ((ps1 ++ ps2) ++ ps3); exact P123).
  destruct (notify_blocking_spec 0 w3) as (_ & _ & _ & _ & _ & P4).
  destruct (_notify_blocking 0 w3) as [[r| |] w4]; cbn [snd] in *;
    exists (((ps1 ++ ps2) ++ ps3) ++ []);
    exact (passes_trans w w3 w4 _ [] P123 P4).
Qed.

Lemma auto_loop_passes (fuel : nat) (sit stand : float) (interval countdown : Z) :
  forall (next_is_stand : bool) (w : World),
  exists ps,
    passes w (snd (auto_loop fuel sit stand interval countdown next_is_stand w)) ps.
Proof.
  induction fuel as [|fuel IH]; intros next_is_stand w; cbn [auto_loop].
  - exists []. apply passes_refl.
  - destruct (stop_is_set w); [exists []; apply passes_refl|].
    destruct (auto_body_passes sit stand interval countdown next_is_stand w)
      as (ps1 & P1).
    destruct (auto_body sit stand interval countdown next_is_stand w)
      as [[[[|] nis]| |] w1]; cbn [snd] in *; try (exists ps1; exact P1).
    destruct (IH nis w1) as (ps2 & P2).
    exists (ps1 ++ ps2). exact (passes_trans w w1 _ ps1 ps2 P1 P2).
Qed.

(** [_auto] starts from a fresh tracker. *)
Lemma auto_passes (fuel : nat) (sit stand : float) (interval countdown : Z) (w : World) :
  exists ps,
    passes (set_desk Desk_init w)
      (snd (_auto fuel sit stand interval countdown w)) ps.
Proof.
  unfold _auto, connect, sleep, bind, ret. cbn [clock set_desk].
  destruct (sleep_until_spec (clock w + 500) (set_desk Desk_init w))
    as (_ & _ & _ & _ & ps1 & P1).
  set (w1 := sleep_until (clock w + 500) (set_desk Desk_init w)) in *.
  destruct (notify_blocking_spec 0 w1) as (_ & _ & _ & Hi2 & Hd2 & P2).
  destruct (_notify_blocking 0 w1) as [[r| |] w2]; cbn [snd] in *;
    pose proof (passes_trans _ w1 w2 ps1 [] P1 P2) as P12;
    try (exists (ps1 ++ []); exact P12).
  rewrite <- Hd2.
  destruct (auto_loop_passes fuel sit stand interval countdown
              (startup_next_is_stand (height_cm (desk w2)) sit stand) w2)
    as (ps3 & P3).
  destruct (auto_loop fuel sit stand interval countdown
              (startup_next_is_stand (height_cm (desk w2)) sit stand) w2)
    as [[nis| |] w3]; cbn [snd] in *;
    pose proof (passes_trans _ w2 w3 _ ps3 P12 P3) as P123;
    try (exists ((ps1 ++ []) ++ ps3); exact P123).
  destruct (notify_blocking_spec 0 w3) as (_ & _ & _ & _ & _ & P4).
  destruct (_notify_blocking 0 w3) as [[r4| |] w4]; cbn [snd] in *;
    exists (((ps1 ++ []) ++ ps3) ++ []);
    exact (passes_trans _ w3 w4 _ [] P123 P4).
Qed.

(** C9. A tracked height, once known, lies in [0, 9999], in every state the
    modelled operations reach: a fresh tracker knows none; the handler keeps
    the bound; and across [move_to], [move_to_cm] and the loop of [_auto] the
    tracked height is the last reading among the notifications that left the
    queue meanwhile, or what it was: nothing but the handler writes it. So
    the bound holds after them, and at the end of [_auto]. It is the only
    bound: the payloads 0000 and 9999 store 0 and 9999, far outside
    [650, 1300], and [height_mm] shows them. *)
Theorem tracked_height_four_digits :
  height_in_range Desk_init /\
  (forall (self : Desk) (data : list byte),
      height_in_range self -> height_in_range (_on_height self data)) /\
  (forall (self : Desk) (data : list byte) (h : Z),
      height_mm (_on_height self data) = Some h ->
      height_mm self = Some h \/ reading data = Some h /\ 0 <= h <= 9999) /\
  (forall (target timeout tol : Z) (w : World),
      exists ps, passes w (snd (move_to target timeout tol w)) ps) /\
  (forall (target_cm : float) (timeout tol : Z) (w : World),
      exists ps, passes w (snd (move_to_cm target_cm timeout tol w)) ps) /\
  (forall (fuel : nat) (sit stand : float) (interval countdown : Z)
          (next_is_stand : bool) (w : World),
      exists ps,
        passes w (snd (auto_loop fuel sit stand interval countdown next_is_stand w)) ps) /\
  (forall (w w' : World) (ps : list (Z * list byte)),
      passes w w' ps -> height_in_range (desk w) -> height_in_range (desk w')) /\
  (forall (fuel : nat) (sit stand : float) (interval countdown : Z) (w : World),
      height_in_range (desk (snd (_auto fuel sit stand interval countdown w)))) /\
  height_mm (_on_height Desk_init (payload "0000")) = Some 0 /\
  height_mm (_on_height Desk_init (payload "9999")) = Some 9999 /\
  (forall self : Desk, height_mm (cleared self) = height_mm self).
Proof.
  split; [exact I|].
  split; [exact on_height_in_range|].
  split.
  { intros self data h. unfold height_mm. rewrite on_height_cases.
    destruct (reading data) as [n|] eqn:Hr; cbn [_height_mm].
    - intros [= <-]. right. split; [reflexivity|]. exact (reading_range data n Hr).
    - intros ->. left. reflexivity. }
  split; [exact move_to_passes|].
  split; [exact move_to_cm_passes|].
  split; [intros; apply auto_loop_passes|].
  split; [exact passes_in_range|].
  split.
  { intros fuel sit stand interval countdown w.
    destruct (auto_passes fuel sit stand interval countdown w) as (ps & P).
    exact (passes_in_range _ _ ps P I). }
  split; [reflexivity|]. split; reflexivity.
Qed.

Lemma tracked_height_four_digits_witness :
  height_in_range (desk settled_world) /\
  height_in_range (_on_height (desk settled_world) (payload "0000")) /\
  height_mm (_on_height (desk settled_world) (payload "0000")) = Some 0.
Proof.
  assert (H : height_in_range (desk settled_world)) by (cbn; lia).
  split; [exact H|]. split; [|reflexivity].
  exact (proj1 (proj2 tracked_height_four_digits)
           (desk settled_world) (payload "0000") H).
Defined.

(** ** Further properties *)

(** *** The codec *)

(** X1. Two targets give the same packet exactly when they are clamped to
    the same height; so distinct heights in [650, 1300] have distinct
    packets, and the height of a packet is 256 times its byte 3 plus its
    byte 4. *)
Theorem build_move_packet_injective (a b : Z) :
  (build_move_packet a = build_move_packet b <-> clamp_mm a = clamp_mm b) /\
  (650 <= a <= 1300 -> 650 <= b <= 1300 ->
   build_move_packet a = build_move_packet b -> a = b) /\
  (forall pk : list Z,
      build_move_packet a = Return pk ->
      256 * nth 3 pk 0 + nth 4 pk 0 = clamp_mm a).
Proof.
  assert (E : build_move_packet a = build_move_packet b <-> clamp_mm a = clamp_mm b).
  { rewrite !build_move_packet_returns. split; [|now intros ->].
    unfold frame. intros [= Hhi Hlo _].
    pose proof (Z.div_mod (clamp_mm a) 256). pose proof (Z.div_mod (clamp_mm b) 256).
    lia. }
  split; [exact E|]. split.
  - intros Ha Hb Hp. apply E in Hp.
    now rewrite (clamp_mm_id a Ha), (clamp_mm_id b Hb) in Hp.
  - rewrite build_move_packet_returns. intros pk [= <-]. unfold frame.
    cbn [nth]. pose proof (Z.div_mod (clamp_mm a) 256). lia.
Qed.

Lemma build_move_packet_injective_witness :
  650 <= 730 <= 1300 /\ 650 <= 1050 <= 1300 /\
  (build_move_packet 730 = build_move_packet 1050 -> 730 = 1050) /\
  build_move_packet 730 <> build_move_packet 1050.
Proof.
  split; [lia|]. split; [lia|].
  pose proof (proj1 (proj2 (build_move_packet_injective 730 1050))
                ltac:(lia) ltac:(lia)) as H.
  split; [exact H|]. intros E. specialize (H E). discriminate H.
Defined.

(** X2. Every packet checks: its nine entries are bytes, and the XOR of the
    bytes at indices 2 to 7, the checksum included, is zero. *)
Theorem build_move_packet_checks (target_mm : Z) :
  exists pk : list Z,
    build_move_packet target_mm = Return pk /\
    Forall (fun x => 0 <= x < 256) pk /\
    xor_fold (firstn 6 (skipn 2 pk)) = 0.
Proof.
  exists (frame (clamp_mm target_mm)).
  pose proof (clamp_mm_range target_mm) as Hr.
  destruct (split_bytes _ Hr) as [Hhi Hlo].
  pose proof (checksum_byte _ Hr) as Hchk.
  split; [apply build_move_packet_returns|]. split.
  - unfold frame. repeat (constructor; [lia|]). constructor.
  - unfold frame. cbn [skipn firstn]. unfold xor_fold in *. cbn [fold_left] in *.
    apply Z.lxor_nilpotent.
Qed.

(** *** The telemetry decoder, there and back *)

Lemma digit_byte_code (d : Z) :
  0 <= d < 10 -> Byte.to_N (digit_byte d) = (48 + Z.to_N d)%N.
Proof.
  intros Hd.
  assert (C : d = 0 \/ d = 1 \/ d = 2 \/ d = 3 \/ d = 4 \/ d = 5 \/ d = 6
              \/ d = 7 \/ d = 8 \/ d = 9) by lia.
  repeat (destruct C as [->|C]; [reflexivity|]). subst d. reflexivity.
Qed.

Lemma to_N_injective (x y : byte) : Byte.to_N x = Byte.to_N y -> x = y.
Proof.
  intros H. pose proof (Byte.of_to_N x) as Hx. rewrite H, Byte.of_to_N in Hx.
  now injection Hx.
Qed.

Lemma map_to_N_injective (p q : list byte) :
  map Byte.to_N p = map Byte.to_N q -> p = q.
Proof.
  revert q. induction p as [|x p IH]; intros [|y q]; cbn [map]; try discriminate.
  - reflexivity.
  - intros [= Hx Hp]. f_equal; [now apply to_N_injective|now apply IH].
Qed.

(** X3. Every height from 0 to 9999 has exactly one payload: its four
    decimal digits, zero-padded, are read back as that height, and two
    payloads that are read as the same height are the same payload. *)
Theorem reading_round_trip (n : Z) :
  (0 <= n <= 9999 -> reading (four_digits n) = Some n) /\
  (forall p q : list byte, reading p = Some n -> reading q = Some n -> p = q).
Proof.
  split.
  - intros Hn. rewrite reading_decode_spec. apply decode_spec_digits.
    assert (H3 : 0 <= n / 1000 < 10)
      by (split; [apply Z.div_pos; lia|apply Z.div_lt_upper_bound; lia]).
    assert (H2 : 0 <= (n / 100) mod 10 < 10) by (apply Z.mod_pos_bound; lia).
    assert (H1 : 0 <= (n / 10) mod 10 < 10) by (apply Z.mod_pos_bound; lia).
    assert (H0 : 0 <= n mod 10 < 10) by (apply Z.mod_pos_bound; lia).
    exists (Z.to_N (n / 1000)), (Z.to_N ((n / 100) mod 10)),
           (Z.to_N ((n / 10) mod 10)), (Z.to_N (n mod 10)).
    split; [lia|]. split.
    + unfold four_digits. cbn [map]. now rewrite !digit_byte_code by assumption.
    + pose proof (Z.div_mod n 10). pose proof (Z.div_mod (n / 10) 10).
      pose proof (Z.div_mod (n / 100) 10).
      assert (n / 100 = n / 10 / 10) by (now rewrite Z.div_div by lia).
      assert (n / 1000 = n / 100 / 10) by (now rewrite Z.div_div by lia).
      lia.
  - intros p q Hp Hq. rewrite reading_decode_spec in Hp, Hq.
    apply decode_spec_digits in Hp as (a3 & a2 & a1 & a0 & Ha & Mp & Np).
    apply decode_spec_digits in Hq as (b3 & b2 & b1 & b0 & Hb & Mq & Nq).
    apply map_to_N_injective. rewrite Mp, Mq.
    assert (a3 = b3 /\ a2 = b2 /\ a1 = b1 /\ a0 = b0) as (-> & -> & -> & ->) by lia.
    reflexivity.
Qed.

Lemma reading_round_trip_witness :
  0 <= 950 <= 9999 /\
  four_digits 950 = payload "0950" /\
  reading (four_digits 950) = Some 950.
Proof.
  split; [lia|]. split; [reflexivity|].
  exact (proj1 (reading_round_trip 950) ltac:(lia)).
Defined.

(** *** Centimetres and millimetres *)

Lemma count_from_in (n : nat) (z0 z : Z) :
  z0 <= z < z0 + Z.of_nat n -> In z (count_from n z0).
Proof.
  revert z0. induction n as [|n IH]; intros z0 Hz; [lia|].
  cbn [count_from]. destruct (Z.eq_dec z0 z) as [->|Hne]; [now left|].
  right. apply IH. lia.
Qed.

Lemma tracked_heights_in (z : Z) : 0 <= z <= 9999 -> In z tracked_heights.
Proof. intros Hz. apply count_from_in. lia. Qed.

(** Checked on each of the ten thousand heights. *)
Lemma cm_round_trip_below :
  forallb
    (fun mm =>
       match int_of_float ((float_of_int mm / 10) * 10)%float with
       | Return m => m =? mm
       | _ => false
       end)
    tracked_heights = true.
Proof. vm_compute. reflexivity. Qed.

Lemma cm_nonzero_below :
  forallb
    (fun mm => (mm =? 0) || negb (float_of_int mm / 10 =? 0)%float)
    tracked_heights = true.
Proof. vm_compute. reflexivity. Qed.

(** X4. For every height the tracker can hold, the centimetres that
    [height_cm] shows convert back to the same millimetres in [move_to_cm]:
    moving to [desk.height_cm] is moving to [desk.height_mm]. *)
Theorem height_cm_round_trip (d : Desk) (mm : Z) :
  height_mm d = Some mm -> 0 <= mm <= 9999 ->
  exists cm : float,
    height_cm d = Some cm /\
    int_of_float (cm * 10)%float = Return mm /\
    forall (timeout tol : Z) (w : World),
      move_to_cm cm timeout tol w = move_to mm timeout tol w.
Proof.
  unfold height_mm, height_cm. intros -> Hr.
  exists (float_of_int mm / 10)%float. split; [reflexivity|].
  assert (E : int_of_float ((float_of_int mm / 10) * 10)%float = Return mm).
  { pose proof cm_round_trip_below as H.
    rewrite forallb_forall in H. specialize (H mm (tracked_heights_in mm Hr)).
    destruct (int_of_float _) as [m| |]; try discriminate.
    apply Z.eqb_eq in H. now subst m. }
  split; [exact E|].
  intros timeout tol w. unfold move_to_cm, bind, lift. now rewrite E.
Qed.

Lemma height_cm_round_trip_witness :
  height_mm (desk settled_world) = Some 1300 /\ 0 <= 1300 <= 9999 /\
  exists cm : float,
    height_cm (desk settled_world) = Some cm /\
    int_of_float (cm * 10)%float = Return 1300.
Proof.
  split; [reflexivity|]. split; [lia|].
  destruct (height_cm_round_trip (desk settled_world) 1300 eq_refl ltac:(lia))
    as (cm & H1 & H2 & _).
  exists cm. split; assumption.
Defined.

(** *** More on the move controller *)

Lemma move_to_is_loop (target timeout tol : Z) (w : World) :
  link_up w = true ->
  move_to target timeout tol w
  = move_loop (S (List.length (inbox (after_write target w))))
      (clock (after_write target w) + timeout) target tol (after_write target w).
Proof.
  intros Hl. destruct (after_write_spec target w Hl) as (Ew & _).
  unfold move_to, bind, lift, monotonic.
  rewrite build_move_packet_returns, Ew. reflexivity.
Qed.

(** X5. A write that the link does not acknowledge is fatal for the call and
    is not retried: [move_to] raises the error of the transport as soon as
    the failure is known, logs nothing as sent, and neither clears the signal
    nor waits. *)
Theorem move_to_transport_failure (target timeout tol : Z) (w : World) :
  link_up w = false ->
  move_to target timeout tol w
    = (Raise BleakError, sleep_until (clock w + write_delay w) w) /\
  sent (snd (move_to target timeout tol w)) = sent w /\
  clock (snd (move_to target timeout tol w))
    = Z.max (clock w) (clock w + write_delay w).
Proof.
  intros Hl.
  assert (E : move_to target timeout tol w
              = (Raise BleakError, sleep_until (clock w + write_delay w) w)).
  { unfold move_to, bind, lift. rewrite build_move_packet_returns.
    unfold write_gatt_char. rewrite Hl. reflexivity. }
  rewrite E. cbn [snd]. split; [reflexivity|].
  destruct (sleep_until_spec (clock w + write_delay w) w) as (Hc & Hs & _).
  split; assumption.
Qed.

Lemma move_to_transport_failure_witness :
  link_up deaf_world = false /\
  fst (move_to 1300 30000 10 deaf_world) = Raise BleakError /\
  sent (snd (move_to 1300 30000 10 deaf_world)) = [].
Proof.
  split; [reflexivity|].
  destruct (move_to_transport_failure 1300 30000 10 deaf_world eq_refl)
    as (E & Hs & _).
  rewrite E. split; [reflexivity|]. rewrite E in Hs. exact Hs.
Defined.

Lemma existsb_none {A : Type} (f : A -> bool) (l : list A) :
  Forall (fun x => f x = false) l -> existsb f l = false.
Proof.
  induction 1 as [|x l Hx _ IH]; cbn [existsb]; [reflexivity|].
  now rewrite Hx, IH.
Qed.

(** X6. [move_to] acts on new notifications only. With a positive timeout,
    if no notification that arrives after the acknowledgement and no later
    than the deadline, with all the queue before it, brings a reading within
    the tolerance, the call answers [False] exactly at the deadline,
    whatever the tracked height was: a desk that already stands at the
    target and reports nothing more is timed out. *)
Theorem move_to_needs_news (target timeout tol : Z) (w : World) :
  link_up w = true -> 0 < timeout ->
  let w1 := after_write target w in
  Forall (fun x => in_tolerance target tol (snd x) = false)
    (window (clock w1 + timeout + 1) (inbox w1)) ->
  fst (move_to target timeout tol w) = Return false /\
  clock (snd (move_to target timeout tol w)) = clock w1 + timeout.
Proof.
  intros Hl Hto w1 Hnone.
  pose proof (move_to_true_reading target timeout tol w Hl) as Hrd.
  destruct (move_to_spec target timeout tol w Hl)
    as (b & w' & ps & E & _ & _ & _ & _ & _ & Hf & _).
  fold w1 in Hf, Hrd. rewrite E in *. cbn [fst snd] in *.
  assert (Hbf : b = false).
  { destruct b; [|reflexivity]. exfalso.
    destruct (Hrd eq_refl) as (a & data & h & Hin & Hr & Hh).
    rewrite Forall_forall in Hnone. specialize (Hnone _ Hin). cbn [snd] in Hnone.
    rewrite (in_tolerance_accepted target tol data h Hr) in Hnone.
    apply Z.leb_gt in Hnone. lia. }
  split; [now rewrite Hbf|]. rewrite (Hf Hbf). lia.
Qed.

Lemma move_to_needs_news_witness :
  link_up settled_world = true /\ 0 < 400 /\
  height_mm (desk settled_world) = Some 1300 /\
  fst (move_to 1300 400 10 settled_world) = Return false /\
  clock (snd (move_to 1300 400 10 settled_world)) = 1420.
Proof.
  split; [reflexivity|]. split; [lia|]. split; [reflexivity|].
  exact (move_to_needs_news 1300 400 10 settled_world eq_refl ltac:(lia)
           (Forall_nil _)).
Defined.

(** X7. Waiting longer or accepting more never loses a success: if
    [move_to] answers [True], it also does, from the same state, with any
    larger timeout and any larger tolerance. With a negative tolerance it
    never answers [True]. *)
Theorem move_to_monotone (target timeout tol timeout' tol' : Z) (w : World) :
  link_up w = true ->
  (timeout <= timeout' -> tol <= tol' ->
   fst (move_to target timeout tol w) = Return true ->
   fst (move_to target timeout' tol' w) = Return true) /\
  (tol < 0 -> fst (move_to target timeout tol w) = Return false).
Proof.
  intros Hl.
  destruct (move_to_spec target timeout tol w Hl)
    as (b & w1 & ps & E & _ & _ & _ & _ & Hb & _).
  destruct (move_to_spec target timeout' tol' w Hl)
    as (b' & w1' & ps' & E' & _ & _ & _ & _ & Hb' & _).
  rewrite E, E'. cbn [fst]. split.
  - intros Hto Htol [= ->]. f_equal. rewrite Hb'. symmetry in Hb.
    apply andb_true_iff in Hb as [Hpos Hb]. apply Z.ltb_lt in Hpos.
    apply andb_true_iff. split; [apply Z.ltb_lt; lia|].
    apply existsb_within in Hb as (h & Hin & Hh).
    apply existsb_within. exists h. split; [|lia].
    apply (observations_grows (clock (after_write target w) + timeout));
      [lia|exact Hin].
  - intros Hneg. f_equal. rewrite Hb.
    rewrite (existsb_none (within target tol)); [apply andb_false_r|].
    apply Forall_forall. intros h _. unfold within. apply Z.leb_gt. lia.
Qed.

Lemma move_to_monotone_witness :
  link_up rising_world = true /\ 6000 <= 30000 /\ 10 <= 25 /\
  fst (move_to 1300 6000 10 rising_world) = Return true /\
  fst (move_to 1300 30000 25 rising_world) = Return true.
Proof.
  split; [reflexivity|]. split; [lia|]. split; [lia|].
  split; [reflexivity|].
  exact (proj1 (move_to_monotone 1300 6000 10 30000 25 rising_world eq_refl)
           ltac:(lia) ltac:(lia) eq_refl).
Defined.

(** X8. [move_to] is a bounded wait: over a link that acknowledges the
    write it returns no earlier than the acknowledgement and no later than
    the deadline (the acknowledgement plus the timeout, if that is ahead);
    a call that answers [True] had a positive timeout and returns no later
    than the deadline. *)
Theorem move_to_bounded_wait (target timeout tol : Z) (w : World) :
  link_up w = true ->
  let w1 := after_write target w in
  let w' := snd (move_to target timeout tol w) in
  clock w <= clock w1 /\
  clock w1 <= clock w' <= Z.max (clock w1) (clock w1 + timeout) /\
  (fst (move_to target timeout tol w) = Return true ->
   0 < timeout /\ clock w' <= clock w1 + timeout).
Proof.
  intros Hl w1 w'. unfold w'. rewrite (move_to_is_loop target timeout tol w Hl).
  fold w1.
  destruct (move_loop_spec (inbox w1) (S (List.length (inbox w1)))
              (clock w1 + timeout) target tol w1 eq_refl (Nat.lt_succ_diag_r _))
    as (b & w2 & ps & E & _ & _ & P & _ & Hf & Ht).
  rewrite E. cbn [fst snd]. destruct P as (Hc & _).
  split.
  { pose proof (proj2 (proj2 (after_write_spec target w Hl))) as H1.
    fold w1 in H1. lia. }
  split.
  - split; [exact Hc|]. destruct b; [destruct (Ht eq_refl) as (? & ? & _); lia|].
    rewrite (Hf eq_refl). lia.
  - intros [= ->]. destruct (Ht eq_refl) as (? & ? & _). lia.
Qed.

Lemma move_to_bounded_wait_witness :
  link_up rising_world = true /\
  20 <= clock (snd (move_to 1300 3000 10 rising_world)) <= 3020.
Proof.
  split; [reflexivity|].
  exact (proj1 (proj2 (move_to_bounded_wait 1300 3000 10 rising_world eq_refl))).
Defined.

Lemma int_of_float_raises (x : float) (e : exn) :
  int_of_float x = Raise e -> e = ValueError \/ e = OverflowError.
Proof.
  unfold int_of_float. destruct (Prim2SF x); intros [= <-]; auto.
Qed.

Lemma move_to_cm_returns (target_cm : float) (timeout tol : Z) (w : World) :
  fst (move_to_cm target_cm timeout tol w) <> Diverged.
Proof.
  unfold move_to_cm, bind, lift.
  destruct (int_of_float (target_cm * 10)%float) as [mm|e|] eqn:E.
  - apply move_to_returns.
  - discriminate.
  - unfold int_of_float in E. destruct (Prim2SF _); discriminate.
Qed.

(** X9. Whatever [move_to_cm] raises, the log of the writes that the link
    has acknowledged is what it was. It raises the
    [ValueError] or [OverflowError] of [int()], for a target that is not a
    finite number, before it touches the link or the clock; and the error of
    the transport, when the link does not acknowledge the write. It raises
    nothing else. *)
Theorem move_to_cm_raises (target_cm : float) (timeout tol : Z) (w : World) (e : exn) :
  fst (move_to_cm target_cm timeout tol w) = Raise e ->
  sent (snd (move_to_cm target_cm timeout tol w)) = sent w /\
  ((e = ValueError \/ e = OverflowError) /\
   int_of_float (target_cm * 10)%float = Raise e /\
   snd (move_to_cm target_cm timeout tol w) = w
   \/ e = BleakError /\ link_up w = false).
Proof.
  unfold move_to_cm, bind, lift.
  destruct (int_of_float (target_cm * 10)%float) as [mm|e0|] eqn:E; cbn [fst snd].
  - intros Hr. destruct (link_up w) eqn:Hl.
    + destruct (move_to_spec mm timeout tol w Hl) as (b & w' & ps & Em & _).
      rewrite Em in Hr. discriminate.
    + destruct (move_to_transport_failure mm timeout tol w Hl) as (Em & Hs & _).
      rewrite Em in Hr. injection Hr as <-.
      split; [exact Hs|]. right. split; reflexivity.
  - intros [= <-]. split; [reflexivity|]. left.
    split; [exact (int_of_float_raises _ _ E)|]. split; reflexivity.
  - discriminate.
Qed.

Lemma move_to_cm_raises_witness :
  fst (move_to_cm nan 30000 10 rising_world) = Raise ValueError /\
  sent (snd (move_to_cm nan 30000 10 rising_world)) = sent rising_world /\
  fst (move_to_cm infinity 30000 10 rising_world) = Raise OverflowError.
Proof.
  split; [reflexivity|]. split; [|reflexivity].
  exact (proj1 (move_to_cm_raises nan 30000 10 rising_world ValueError eq_refl)).
Defined.

(** *** Connecting *)

Lemma deliver_until_window (t : Z) (q : list (Z * list byte)) (d : Desk) :
  q = window (t + 1) q ++ fst (deliver_until t q d) /\
  snd (deliver_until t q d) = run_handler d (map snd (window (t + 1) q)).
Proof.
  revert d. induction q as [|[a data] q IH]; intros d;
    cbn [deliver_until window]; [split; reflexivity|].
  destruct (Z.leb_spec a t) as [Ha|Ha];
    (destruct (Z.ltb_spec a (t + 1)) as [Hb|Hb]; [|try lia]); try lia.
  - destruct (IH (_on_height d data)) as [Hq Hd].
    cbn [app map snd run_handler fold_left]. split; [now rewrite <- Hq|exact Hd].
  - split; reflexivity.
Qed.

(** X10. Every session starts from an unknown height: after [connect] the
    tracker holds the last reading among the notifications of the first half
    second, or none, whatever an earlier tracker held; the set() calls are
    those readings; nothing was sent. *)
Theorem connect_first_half_second (w : World) :
  let w' := snd (connect w) in
  let early := window (clock w + 501) (inbox w) in
  fst (connect w) = Return tt /\
  clock w' = clock w + 500 /\
  sent w' = sent w /\
  inbox w = early ++ inbox w' /\
  height_mm (desk w') = last_reading None (map snd early) /\
  sets (_height_updated (desk w')) = accepted_count (map snd early).
Proof.
  unfold connect, sleep, sleep_until. cbn [clock set_desk inbox desk fst snd].
  replace (Z.max (clock w) (clock w + 500)) with (clock w + 500) by lia.
  destruct (deliver_until_window (clock w + 500) (inbox w) Desk_init) as [Hq Hd].
  replace (clock w + 500 + 1) with (clock w + 501) in Hq, Hd by lia.
  destruct (deliver_until (clock w + 500) (inbox w) Desk_init) as [q d].
  cbn [fst snd set_time clock sent inbox desk] in *.
  split; [reflexivity|]. split; [reflexivity|]. split; [reflexivity|].
  split; [exact Hq|]. subst d. split.
  - apply run_handler_height.
  - rewrite run_handler_sets. reflexivity.
Qed.

(** *** The commands of the command line *)

Lemma connect_in_range (w : World) : height_in_range (desk (snd (connect w))).
Proof.
  destruct (connect_first_half_second w) as (_ & _ & _ & _ & Hh & _).
  unfold height_in_range. unfold height_mm in Hh. rewrite Hh.
  exact (last_reading_range None _ I).
Qed.

(** X11. The command [height] connects, sends nothing, and prints the
    height in centimetres that the tracker holds half a second later. It
    prints [No data] when no reading has arrived by then, and also when the
    reading is 0000: a height of zero is known but not shown. *)
Theorem cli_height_report (sit_cm stand_cm : float) (w : World) :
  let w' := snd (connect w) in
  _cli_command sit_cm stand_cm CmdHeight w
    = (Return match height_mm (desk w') with
              | Some mm => if mm =? 0 then NoData
                           else HeightIs (float_of_int mm / 10)%float
              | None => NoData
              end, w') /\
  sent w' = sent w.
Proof.
  intros w'. pose proof (connect_in_range w) as Hr.
  destruct (connect_first_half_second w) as (Hc & _ & Hs & _).
  fold w' in Hr, Hs. split; [|exact Hs].
  unfold _cli_command, bind.
  destruct (connect w) as [r w2] eqn:E. cbn [fst snd] in *. subst r. subst w'.
  cbn [snd] in *. unfold height_cm, height_mm, height_in_range, truthy in *.
  destruct (_height_mm (desk w2)) as [mm|]; [|reflexivity].
  pose proof cm_nonzero_below as H. rewrite forallb_forall in H.
  specialize (H mm (tracked_heights_in mm Hr)).
  destruct (Z.eqb_spec mm 0) as [->|Hne]; [reflexivity|].
  cbn [orb] in H. now rewrite H.
Qed.

(** X12. The commands [sit], [stand] and [move], when they return, have
    written exactly one frame: that of the preset, or of the height asked
    for, times ten, truncated and clamped into [650, 1300]. They print
    [Reached] exactly when [move_to] answered so, with the height tracked at
    that moment. *)
Theorem cli_move_report (sit_cm stand_cm : float) (cmd : command)
    (target : float) (r : report) (w w' : World) :
  cmd = CmdSit /\ target = sit_cm
  \/ cmd = CmdStand /\ target = stand_cm
  \/ cmd = CmdMove target ->
  _cli_command sit_cm stand_cm cmd w = (Return r, w') ->
  exists (mm : Z) (ok : bool),
    int_of_float (target * 10)%float = Return mm /\
    move_to mm default_timeout default_tolerance_mm (snd (connect w))
      = (Return ok, w') /\
    r = Moved ok (height_cm (desk w')) /\
    sent w' = sent w ++ [frame (clamp_mm mm)].
Proof.
  intros Hcmd Hrun.
  destruct (connect_first_half_second w) as (Hc & _ & Hs & _).
  assert (E : _cli_command sit_cm stand_cm cmd w
              = (ok <- move_to_cm target default_timeout default_tolerance_mm ;;
                 fun w2 => (Return (Moved ok (height_cm (desk w2))), w2))
                  (snd (connect w))).
  { unfold _cli_command, bind at 1.
    destruct (connect w) as [rc wc]. cbn [fst snd] in *. subst rc.
    destruct Hcmd as [[-> ->]|[[-> ->]| ->]]; reflexivity. }
  rewrite E in Hrun. unfold bind in Hrun.
  destruct (move_to_cm target default_timeout default_tolerance_mm (snd (connect w)))
    as [[ok| |] w2] eqn:Em; try discriminate.
  injection Hrun as <- <-.
  destruct (move_to_cm_sent _ _ _ _ _ _ Em) as (mm & Hi & Hm & Hsent).
  exists mm, ok. split; [exact Hi|]. split; [exact Hm|].
  split; [reflexivity|]. now rewrite Hsent, Hs.
Qed.

Lemma cli_move_report_witness :
  fst (_cli_command 73 105 (CmdMove 200) rising_world) = Return (Moved false (Some 130%float)) /\
  exists (mm : Z) (ok : bool),
    int_of_float (200 * 10)%float = Return mm /\
    sent (snd (_cli_command 73 105 (CmdMove 200) rising_world))
      = sent rising_world ++ [frame (clamp_mm mm)].
Proof.
  split; [vm_compute; reflexivity|].
  destruct (cli_move_report 73 105 (CmdMove 200) 200
              (Moved false (Some 130%float)) rising_world
              (snd (_cli_command 73 105 (CmdMove 200) rising_world))
              (or_intror (or_intror eq_refl)) eq_refl)
    as (mm & ok & Hi & _ & _ & Hs).
  exists mm, ok. split; assumption.
Defined.

(** *** The scheduler, over a whole run *)

Lemma wait_for_stop_timeout (timeout : Z) (w w1 : World) :
  wait_for_stop timeout w = (Raise TimeoutError, w1) ->
  0 < timeout -> clock w1 = clock w + timeout.
Proof.
  unfold wait_for_stop. intros Hw Ht.
  destruct (stop_is_set w); [discriminate|].
  destruct (Z.leb_spec timeout 0); [lia|].
  assert (Hc : clock (sleep_until (clock w + timeout) w) = clock w + timeout).
  { destruct (sleep_until_spec (clock w + timeout) w) as (-> & _). lia. }
  destruct (stop_at w) as [s|].
  - destruct (s <? clock w + timeout); [discriminate|].
    injection Hw as <-. exact Hc.
  - injection Hw as <-. exact Hc.
Qed.

(** The ways a pass of the loop can end, and what it has sent by then. *)
Lemma auto_body_cases (sit stand : float) (interval countdown : Z)
    (next_is_stand : bool) (w : World) :
  let r := auto_body sit stand interval countdown next_is_stand w in
  (sent (snd r) = sent w /\
   (fst r = Return (Break, next_is_stand)
    \/ fst r = Return (Again, next_is_stand)
    \/ exists e, fst r = Raise e))
  \/ ((fst r = Return (Again, negb next_is_stand) \/ exists e, fst r = Raise e) /\
      exists mm,
        int_of_float (target_of next_is_stand sit stand * 10)%float = Return mm /\
        sent (snd r) = sent w ++ [frame (clamp_mm mm)]).
Proof.
  unfold auto_body.
  destruct (wait_for_stop_spec (seconds interval) w) as ([[E _]|E] & S1 & _);
    rewrite E; cbn [fst snd].
  { left. split; [exact S1|]. left. reflexivity. }
  set (w1 := snd (wait_for_stop (seconds interval) w)) in *.
  destruct (notify_spec countdown w1) as ([[skipped En]|[_ [e1 En]]] & S2 & _);
    unfold bind; rewrite En;
    set (w2 := snd (_notify countdown w1)) in *;
    assert (S12 : sent w2 = sent w) by congruence.
  2:{ left. split; [exact S12|]. right; right. now exists e1. }
  destruct (stop_is_set w2); [left; split; [exact S12|left; reflexivity]|].
  destruct skipped; [left; split; [exact S12|right; left; reflexivity]|].
  unfold ret.
  pose proof (move_to_cm_returns (target_of next_is_stand sit stand)
                default_timeout default_tolerance_mm w2) as Hnd.
  destruct (move_to_cm (target_of next_is_stand sit stand)
              default_timeout default_tolerance_mm w2) as [[ok|e|] w3] eqn:Em;
    cbn [fst snd] in *.
  - right.
    destruct (move_to_cm_sent _ _ _ _ _ _ Em) as (mm & Hi & _ & Hs).
    destruct (notify_blocking_spec 0 w3) as ([[r4 E4]|[_ [e4 E4]]] & S4 & _);
      rewrite E4; cbn [fst snd].
    + split; [now left|]. exists mm. split; [exact Hi|]. now rewrite S4, Hs, S12.
    + split; [right; now exists e4|].
      exists mm. split; [exact Hi|]. now rewrite S4, Hs, S12.
  - left. split; [|right; right; exists e; reflexivity].
    assert (Hr : fst (move_to_cm (target_of next_is_stand sit stand)
                        default_timeout default_tolerance_mm w2) = Raise e)
      by now rewrite Em.
    unfold move_to_cm, bind, lift in Hr, Em.
    destruct (int_of_float (target_of next_is_stand sit stand * 10)%float)
      as [mm|e0|]; [|now injection Em as _ <-|discriminate].
    destruct (link_up w2) eqn:Hl.
    + destruct (move_to_spec mm default_timeout default_tolerance_mm w2 Hl)
        as (b & w' & ps & Em' & _).
      rewrite Em' in Hr. discriminate.
    + pose proof (proj2 (move_to_link_down mm default_timeout default_tolerance_mm
                           w2 Hl)) as Hs.
      rewrite Em in Hs. cbn [snd] in Hs. congruence.
  - contradiction.
Qed.

(** X13. Over a whole run of the loop of [_auto], with presets that convert
    to millimetres, the frames written alternate between the two presets,
    starting with the one that [next_is_stand] names, whatever was skipped in
    between and however the run ends; and when the loop is left normally,
    [next_is_stand] has flipped once per frame written. *)
Theorem auto_loop_alternates (sit stand : float) (sit_mm stand_mm : Z)
    (interval countdown : Z) (fuel : nat) (next_is_stand : bool) (w : World) :
  int_of_float (sit * 10)%float = Return sit_mm ->
  int_of_float (stand * 10)%float = Return stand_mm ->
  let r := auto_loop fuel sit stand interval countdown next_is_stand w in
  exists n : nat,
    (n <= fuel)%nat /\
    sent (snd r) = sent w ++ alternating n next_is_stand sit_mm stand_mm /\
    forall last : bool,
      fst r = Return last ->
      last = if Nat.even n then next_is_stand else negb next_is_stand.
Proof.
  intros Hsit Hstand. revert next_is_stand w.
  induction fuel as [|fuel IH]; intros next_is_stand w; cbn [auto_loop].
  { exists 0%nat. cbn. rewrite app_nil_r. repeat split; [lia|discriminate]. }
  assert (Z0 : forall (nis : bool) (v : World),
             exists n : nat,
               (n <= S fuel)%nat /\
               sent (snd (Return nis, v)) = sent v ++ alternating n nis sit_mm stand_mm /\
               forall last : bool,
                 fst (@Return bool nis, v) = Return last ->
                 last = if Nat.even n then nis else negb nis).
  { intros nis v. exists 0%nat. cbn. rewrite app_nil_r.
    split; [lia|]. split; [reflexivity|]. now intros last [= <-]. }
  destruct (stop_is_set w); [apply Z0|].
  destruct (auto_body_cases sit stand interval countdown next_is_stand w)
    as [[Hs Ho]|[Ho (mm & Hi & Hs)]];
    destruct (auto_body sit stand interval countdown next_is_stand w)
      as [[[fl nis]|e|] w1]; cbn [fst snd] in *.
  - (* nothing sent in this pass *)
    destruct Ho as [[= -> ->]|[[= -> ->]|[e He]]]; [| |discriminate].
    + exists 0%nat. cbn. rewrite app_nil_r.
      split; [lia|]. split; [exact Hs|]. now intros last [= <-].
    + destruct (IH next_is_stand w1) as (n & Hn & Hsn & Hl).
      exists n. split; [lia|]. split; [now rewrite Hsn, Hs|exact Hl].
  - exists 0%nat. cbn. rewrite app_nil_r.
    split; [lia|]. split; [exact Hs|]. discriminate.
  - destruct Ho as [[=]|[[=]|[e [=]]]].
  - (* a frame was sent and the target flipped *)
    destruct Ho as [[= -> ->]|[e He]]; [|discriminate].
    destruct (IH (negb next_is_stand) w1) as (n & Hn & Hsn & Hl).
    exists (S n). split; [lia|]. split.
    + rewrite Hsn, Hs, <- app_assoc. cbn [alternating app]. do 3 f_equal.
      unfold target_of in Hi. destruct next_is_stand; congruence.
    + intros last Hlast. rewrite (Hl last Hlast). rewrite Nat.even_succ.
      rewrite <- Nat.negb_even. destruct (Nat.even n); [reflexivity|].
      now rewrite negb_involutive.
  - (* a frame was sent, and the notification of the outcome raised *)
    exists 1%nat. split; [lia|]. split; [|discriminate].
    rewrite Hs. cbn [alternating app]. do 3 f_equal.
    unfold target_of in Hi. destruct next_is_stand; congruence.
  - destruct Ho as [[=]|[e [=]]].
Qed.

Lemma auto_loop_alternates_witness :
  int_of_float (73 * 10)%float = Return 730 /\
  int_of_float (105 * 10)%float = Return 1050 /\
  exists n : nat,
    sent (snd (auto_loop 5 73 105 600 30 false
                 (office_world (Some 1900000) [(true, 3000)])))
    = sent (office_world (Some 1900000) [(true, 3000)])
      ++ alternating n false 730 1050.
Proof.
  split; [reflexivity|]. split; [reflexivity|].
  destruct (auto_loop_alternates 73 105 730 1050 600 30 5 false
              (office_world (Some 1900000) [(true, 3000)]) eq_refl eq_refl)
    as (n & _ & Hs & _).
  exists n. exact Hs.
Defined.

(** A pass that goes on to the next one has taken a whole interval. *)
Lemma auto_body_again_clock (sit stand : float) (interval countdown : Z)
    (next_is_stand nis' : bool) (w : World) :
  0 < interval ->
  fst (auto_body sit stand interval countdown next_is_stand w) = Return (Again, nis') ->
  clock w + seconds interval
    <= clock (snd (auto_body sit stand interval countdown next_is_stand w)) /\
  stop_at (snd (auto_body sit stand interval countdown next_is_stand w)) = stop_at w.
Proof.
  intros Hi Hr.
  destruct (auto_body_passes sit stand interval countdown next_is_stand w)
    as (ps & _ & Hst & _).
  split; [|exact Hst]. revert Hr. unfold auto_body.
  destruct (wait_for_stop_spec (seconds interval) w) as ([[E _]|E] & _ & ps1 & P1);
    rewrite E; cbn [fst snd]; [discriminate|].
  set (w1 := snd (wait_for_stop (seconds interval) w)) in *.
  assert (C1 : clock w1 = clock w + seconds interval)
    by (apply (wait_for_stop_timeout _ _ _ E); unfold seconds; lia).
  destruct (notify_spec countdown w1) as (_ & _ & _ & ps2 & C2 & _).
  unfold bind.
  destruct (_notify countdown w1) as [[skipped|e|] w2]; cbn [fst snd] in *;
    try discriminate.
  destruct (stop_is_set w2); [discriminate|].
  destruct skipped; cbn [fst snd]; [intros _; lia|].
  unfold ret.
  destruct (move_to_cm_passes (target_of next_is_stand sit stand)
              default_timeout default_tolerance_mm w2) as (ps3 & C3 & _).
  destruct (move_to_cm (target_of next_is_stand sit stand)
              default_timeout default_tolerance_mm w2) as [[ok|e|] w3];
    cbn [fst snd] in *; try discriminate.
  destruct (notify_blocking_spec 0 w3) as (_ & _ & _ & _ & _ & C4 & _).
  destruct (_notify_blocking 0 w3) as [[r4|e|] w4]; cbn [fst snd] in *;
    try discriminate.
  intros _. lia.
Qed.

(** X14. The stop signal ends [_auto]'s loop: with a positive interval and a
    signal that is due, the loop is over (left, or ended by an exception)
    within as many passes as intervals fit before the signal, and one more. *)
Theorem auto_loop_stops (sit stand : float) (interval countdown s : Z) (fuel : nat) :
  0 < interval ->
  forall (next_is_stand : bool) (w : World),
    stop_at w = Some s ->
    s <= clock w + Z.of_nat fuel * seconds interval ->
    fst (auto_loop (S fuel) sit stand interval countdown next_is_stand w) <> Diverged.
Proof.
  intros Hi. induction fuel as [|fuel IH]; intros next_is_stand w Hat Hs.
  - cbn [auto_loop]. unfold stop_is_set. rewrite Hat.
    destruct (Z.leb_spec s (clock w)); [discriminate|lia].
  - cbn [auto_loop]. fold auto_loop. destruct (stop_is_set w); [discriminate|].
    pose proof (auto_body_again_clock sit stand interval countdown next_is_stand) as Hc.
    assert (Hnd : fst (auto_body sit stand interval countdown next_is_stand w)
                  <> Diverged).
    { destruct (auto_body_cases sit stand interval countdown next_is_stand w)
        as [[_ [Ho|[Ho|[e Ho]]]]|[[Ho|[e Ho]] _]]; rewrite Ho; discriminate. }
    destruct (auto_body sit stand interval countdown next_is_stand w)
      as [[[[|] nis]|e|] w1] eqn:Eb; cbn [fst snd] in *; try discriminate;
      [|contradiction].
    destruct (Hc nis w Hi) as [Hclk Hstop]; [now rewrite Eb|].
    rewrite Eb in Hclk, Hstop. cbn [snd] in *.
    apply IH; [congruence|]. unfold seconds in *. lia.
Qed.

Lemma auto_loop_stops_witness :
  0 < 600 /\
  stop_at (office_world (Some 1900000) [(true, 3000)]) = Some 1900000 /\
  1900000 <= clock (office_world (Some 1900000) [(true, 3000)])
             + Z.of_nat 4 * seconds 600 /\
  fst (auto_loop 5 73 105 600 30 false
         (office_world (Some 1900000) [(true, 3000)])) <> Diverged.
Proof.
  split; [lia|]. split; [reflexivity|].
  assert (H : 1900000 <= clock (office_world (Some 1900000) [(true, 3000)])
                         + Z.of_nat 4 * seconds 600) by (cbn; lia).
  split; [exact H|].
  exact (auto_loop_stops 73 105 600 30 1900000 4 ltac:(lia) false
           (office_world (Some 1900000) [(true, 3000)]) eq_refl H).
Defined.

(** X15. A signal that arrives while [_auto] is still connecting ends it
    before the first pass: the run is the connection and the two plain
    notifications, of the start and of the stop, and nothing else. No
    countdown is shown, nothing is written to the link, and the tracker is
    what the connection left. [_auto] returns if both notifications do, and
    otherwise ends with the exception of the one that does not. *)
Theorem auto_stopped_while_connecting (fuel : nat) (sit stand : float)
    (interval countdown s : Z) (w : World) :
  stop_at w = Some s -> s <= clock w + 500 ->
  let w1 := snd (connect w) in
  let nis := startup_next_is_stand (height_cm (desk w1)) sit stand in
  let r := _auto (S fuel) sit stand interval countdown w in
  r = (_notify_blocking 0 ;;; _notify_blocking 0 ;;; ret nis) w1 /\
  (fst r = Return nis \/ exists e, fst r = Raise e) /\
  sent (snd r) = sent w /\
  inbox (snd r) = inbox w1 /\ desk (snd r) = desk w1 /\
  (forall (r1 r2 : bool) (v1 v2 : World),
      _notify_blocking 0 w1 = (Return r1, v1) ->
      _notify_blocking 0 v1 = (Return r2, v2) ->
      r = (Return nis, v2)) /\
  (forall (e : exn) (v1 : World),
      _notify_blocking 0 w1 = (Raise e, v1) -> r = (Raise e, v1)) /\
  (forall (r1 : bool) (e : exn) (v1 v2 : World),
      _notify_blocking 0 w1 = (Return r1, v1) ->
      _notify_blocking 0 v1 = (Raise e, v2) ->
      r = (Raise e, v2)).
Proof.
  intros Hat Hs w1 nis r.
  destruct (connect_first_half_second w) as (Hr & Hc & Hsent & _).
  fold w1 in Hc, Hsent.
  assert (Hst : stop_at w1 = stop_at w).
  { unfold w1, connect, sleep. cbn [snd].
    destruct (sleep_until_spec (clock (set_desk Desk_init w) + 500)
                (set_desk Desk_init w)) as (_ & _ & _ & _ & ps & _ & Hst & _).
    exact Hst. }
  assert (E : r = (_notify_blocking 0 ;;; _notify_blocking 0 ;;; ret nis) w1).
  { unfold r, nis, _auto. unfold bind at 1. destruct (connect w) as [r0 v] eqn:Ec.
    cbn [fst snd] in *. subst r0. subst w1. unfold bind, ret.
    destruct (notify_blocking_spec 0 v) as (_ & _ & _ & _ & Hd1 & P1).
    destruct (_notify_blocking 0 v) as [[r1| |] v1]; cbn [snd] in *;
      [|reflexivity|reflexivity].
    cbn [auto_loop].
    destruct P1 as (C1 & St1 & _).
    unfold stop_is_set. rewrite St1, Hst, Hat.
    destruct (Z.leb_spec s (clock v1)); [reflexivity|lia]. }
  split; [exact E|]. rewrite E. clear E r. unfold bind, ret.
  destruct (notify_blocking_spec 0 w1) as (O1 & S1 & _ & I1 & D1 & _).
  destruct (_notify_blocking 0 w1) as [r1 v1] eqn:E1. cbn [snd] in *.
  destruct O1 as [[b1 [= ->]]|[_ [e1 [= ->]]]].
  2:{ cbn [fst snd]. split; [right; now exists e1|]. split; [congruence|].
      split; [exact I1|]. split; [exact D1|].
      split; [intros ? ? ? ? [=]|].
      split; [now intros ? ? [= <- <-]|intros ? ? ? ? [=]]. }
  destruct (notify_blocking_spec 0 v1) as (O2 & S2 & _ & I2 & D2 & _).
  destruct (_notify_blocking 0 v1) as [r2 v2] eqn:E2. cbn [snd] in *.
  destruct O2 as [[b2 [= ->]]|[_ [e2 [= ->]]]]; cbn [fst snd].
  - split; [now left|]. split; [congruence|]. split; [congruence|].
    split; [congruence|]. split; [|split].
    + intros r1' r2' v1' v2' [= _ <-] E2'.
      rewrite E2 in E2'. now injection E2' as _ <-.
    + intros ? ? [=].
    + intros r1' e v1' v2' [= _ <-] E2'. rewrite E2 in E2'. discriminate E2'.
  - split; [right; now exists e2|]. split; [congruence|]. split; [congruence|].
    split; [congruence|]. split; [|split].
    + intros r1' r2' v1' v2' [= _ <-] E2'. rewrite E2 in E2'. discriminate E2'.
    + intros ? ? [=].
    + intros r1' e v1' v2' [= _ <-] E2'.
      rewrite E2 in E2'. now injection E2' as <- <-.
Qed.

Lemma auto_stopped_while_connecting_witness :
  stop_at (office_world (Some 600) [(false, 100); (false, 300)]) = Some 600 /\
  600 <= clock (office_world (Some 600) [(false, 100); (false, 300)]) + 500 /\
  sent (snd (_auto 3 73 105 600 30
               (office_world (Some 600) [(false, 100); (false, 300)]))) = [] /\
  clock (snd (_auto 3 73 105 600 30
                (office_world (Some 600) [(false, 100); (false, 300)]))) = 1400.
Proof.
  split; [reflexivity|].
  assert (H : 600 <= clock (office_world (Some 600) [(false, 100); (false, 300)]) + 500)
    by (cbn; lia).
  split; [exact H|].
  destruct (auto_stopped_while_connecting 2 73 105 600 30 600
              (office_world (Some 600) [(false, 100); (false, 300)]) eq_refl H)
    as (E & _ & Hs & _).
  split; [exact Hs|]. rewrite E. reflexivity.
Defined.

(** A run of [osascript] that outlasts the five seconds of [subprocess.run]
    ends [_auto] with [TimeoutExpired], here in the notification of the
    stop; and where [osascript] cannot be started, [_auto] ends with that
    error in the notification of the start, 500 ms after the call, having
    sent nothing. *)
Example auto_notification_times_out :
  fst (_auto 3 73 105 600 30 (office_world (Some 600) [(false, 100); (false, 6000)]))
  = Raise TimeoutExpired /\
  fst (_auto 3 73 105 600 30 (set_dialogs [Failed OSError] rising_world))
  = Raise OSError /\
  clock (snd (_auto 3 73 105 600 30 (set_dialogs [Failed OSError] rising_world)))
  = 500 /\
  sent (snd (_auto 3 73 105 600 30 (set_dialogs [Failed OSError] rising_world)))
  = [].
Proof. repeat split. Qed.

(** *** Discovery *)

Lemma startswith_spec (s p : string) :
  startswith s p = true <-> exists q, s = String.append p q.
Proof.
  revert s. induction p as [|a p IH]; intros s.
  - split; [intros _; exists s; reflexivity|intros _; destruct s; reflexivity].
  - destruct s as [|c s]; simpl; [split; [discriminate|intros [q [=]]]|].
    rewrite andb_true_iff, Ascii.eqb_eq, IH. split.
    + intros [-> [q ->]]. exists q. reflexivity.
    + intros [q [= -> ->]]. split; [reflexivity|exists q; reflexivity].
Qed.

(** [in] on strings finds the needle anywhere in the hay. *)
Lemma contains_spec (needle hay : string) :
  contains needle hay = true <->
  exists p q, hay = String.append p (String.append needle q).
Proof.
  induction hay as [|c hay IH]; cbn [contains]; rewrite orb_true_iff, startswith_spec.
  - split.
    + intros [[q Hq]|[=]]. exists EmptyString, q. exact Hq.
    + intros (p & q & Hpq). left. destruct p as [|? ?]; [|discriminate].
      exists q. exact Hpq.
  - rewrite IH. split.
    + intros [[q Hq]|(p & q & ->)].
      * exists EmptyString, q. exact Hq.
      * exists (String c p), q. reflexivity.
    + intros ([|c' p] & q & Hpq).
      * left. exists q. exact Hpq.
      * right. injection Hpq as -> ->. exists p, q. reflexivity.
Qed.

Lemma scan_filter (lower : string -> string) (devices : list BLEDevice) :
  scan lower devices
  = map address
      (filter (fun d => existsb (fun u => contains (lower SERVICE_UUID) (lower u))
                          (uuids_of d)) devices).
Proof.
  unfold scan.
  assert (G : forall acc,
             fold_left
               (fun results d =>
                  if existsb (fun u => contains (lower SERVICE_UUID) (lower u)) (uuids_of d)
                  then results ++ [address d] else results) devices acc
             = acc ++ map address
                 (filter (fun d => existsb (fun u => contains (lower SERVICE_UUID) (lower u))
                                     (uuids_of d)) devices)).
  { induction devices as [|d ds IH]; intros acc; cbn [fold_left filter map].
    - now rewrite app_nil_r.
    - rewrite IH. destruct (existsb _ (uuids_of d)); cbn [map];
        [now rewrite <- app_assoc|reflexivity]. }
  apply (G []).
Qed.

(** X16. [scan] lists an address exactly when a discovered device with that
    address advertises a uuid whose lower-case form contains the lower-case
    service uuid somewhere; a uuid that is the service uuid up to the case of
    its letters is enough, a device without the entry [uuids], or with an
    empty one, is not listed. The addresses come in the order of discovery,
    once per matching device: scanning two batches is scanning each. *)
Theorem scan_lists_advertisers (lower : string -> string) (ds ds' : list BLEDevice) :
  (forall a : string,
      In a (scan lower ds) <->
      exists d u p q,
        In d ds /\ address d = a /\ In u (uuids_of d) /\
        lower u = String.append p (String.append (lower SERVICE_UUID) q)) /\
  (forall d u,
      In u (uuids_of d) -> lower u = lower SERVICE_UUID ->
      scan lower [d] = [address d]) /\
  (forall d,
      metadata_uuids d = None \/ metadata_uuids d = Some [] ->
      scan lower [d] = []) /\
  scan lower (ds ++ ds') = scan lower ds ++ scan lower ds' /\
  (List.length (scan lower ds) <= List.length ds)%nat.
Proof.
  split; [|split; [|split; [|split]]].
  - intros a. rewrite scan_filter, in_map_iff. split.
    + intros (d & Ha & Hd). apply filter_In in Hd as [Hin Hex].
      apply existsb_exists in Hex as (u & Hu & Hc).
      apply contains_spec in Hc as (p & q & Hpq).
      exists d, u, p, q. repeat split; assumption.
    + intros (d & u & p & q & Hin & Ha & Hu & Hpq). exists d.
      split; [exact Ha|]. apply filter_In. split; [exact Hin|].
      apply existsb_exists. exists u. split; [exact Hu|].
      apply contains_spec. exists p, q. exact Hpq.
  - intros d u Hu Hl. rewrite scan_filter. cbn [filter].
    replace (existsb _ (uuids_of d)) with true; [reflexivity|].
    symmetry. apply existsb_exists. exists u. split; [exact Hu|].
    apply contains_spec. exists EmptyString, EmptyString. rewrite Hl.
    cbn [String.append].
    clear. induction (lower SERVICE_UUID) as [|c s IH]; cbn [String.append];
      [reflexivity|now rewrite <- IH].
  - intros d Hd. rewrite scan_filter. cbn [filter]. unfold uuids_of.
    destruct Hd as [-> | ->]; reflexivity.
  - rewrite !scan_filter, filter_app, map_app. reflexivity.
  - rewrite scan_filter, length_map. apply filter_length_le.
Qed.

Lemma scan_lists_advertisers_witness :
  scan ascii_lower neighbourhood = ["AA:01"%string; "CC:03"%string] /\
  In "CC:03"%string (scan ascii_lower neighbourhood).
Proof.
  split; [reflexivity|].
  apply (proj1 (scan_lists_advertisers ascii_lower neighbourhood []) "CC:03"%string).
  exists {| address := "CC:03";
            metadata_uuids := Some ["0000180A-0000-1000-8000-00805F9B34FB"%string;
                                    "0000FF00-0000-1000-8000-00805F9B34FB"%string] |},
         "0000FF00-0000-1000-8000-00805F9B34FB"%string, EmptyString, EmptyString.
  split; [right; right; left; reflexivity|]. split; [reflexivity|].
  split; [right; left; reflexivity|reflexivity].
Defined.

(** *** Configuration *)

Lemma dict_get_missing (cfg : list (string * toml)) (key : string) (default : toml) :
  ~ In key (keys cfg) -> dict_get cfg key default = default.
Proof.
  unfold keys. induction cfg as [|[k v] cfg IH]; cbn [dict_get map fst In];
    [reflexivity|].
  intros Hn. destruct (String.eqb_spec key k) as [->|_]; [tauto|].
  apply IH. tauto.
Qed.

Lemma dict_get_present (cfg : list (string * toml)) (key : string) (v default : toml) :
  NoDup (keys cfg) -> In (key, v) cfg -> dict_get cfg key default = v.
Proof.
  unfold keys. induction cfg as [|[k v'] cfg IH]; cbn [dict_get map fst In];
    [intros _ []|].
  intros Hnd [[= -> ->]|Hin].
  - now rewrite String.eqb_refl.
  - inversion Hnd as [|? ? Hk Hnd']; subst.
    destruct (String.eqb_spec key k) as [->|_]; [|now apply IH].
    exfalso. apply Hk. apply in_map_iff. exists (k, v). split; [reflexivity|exact Hin].
Qed.

(** X17. [_get_config] falls back silently: without a file, or with a file
    that cannot be read or parsed, it answers an empty address and the
    presets 73.0 and 105.0; a key that the file lacks gets its own fallback
    while the others are kept; and a value that the file has is passed on as
    it is, of whatever type, unchecked. *)
Theorem get_config_fallbacks (cfg : list (string * toml)) :
  _get_config None
    = (TStr "", TFloat 73, TFloat 105) /\
  _get_config (Some None) = _get_config None /\
  (~ In "address"%string (keys cfg) ->
   fst (fst (_get_config (Some (Some cfg)))) = TStr "") /\
  (~ In "sit_cm"%string (keys cfg) ->
   snd (fst (_get_config (Some (Some cfg)))) = TFloat 73) /\
  (~ In "stand_cm"%string (keys cfg) ->
   snd (_get_config (Some (Some cfg))) = TFloat 105) /\
  (NoDup (keys cfg) ->
   forall v : toml,
     (In ("address"%string, v) cfg -> fst (fst (_get_config (Some (Some cfg)))) = v) /\
     (In ("sit_cm"%string, v) cfg -> snd (fst (_get_config (Some (Some cfg)))) = v) /\
     (In ("stand_cm"%string, v) cfg -> snd (_get_config (Some (Some cfg))) = v)).
Proof.
  unfold _get_config, _load_config. cbn [fst snd].
  split; [reflexivity|]. split; [reflexivity|].
  split; [apply dict_get_missing|]. split; [apply dict_get_missing|].
  split; [apply dict_get_missing|].
  intros Hnd v. repeat split; apply dict_get_present; assumption.
Qed.

Lemma get_config_fallbacks_witness :
  ~ In "sit_cm"%string (keys [("address"%string, TStr "AA:01"); ("stand_cm"%string, TInt 110)]) /\
  NoDup (keys [("address"%string, TStr "AA:01"); ("stand_cm"%string, TInt 110)]) /\
  _get_config (Some (Some [("address"%string, TStr "AA:01"); ("stand_cm"%string, TInt 110)]))
    = (TStr "AA:01", TFloat 73, TInt 110).
Proof.
  assert (Hn : ~ In "sit_cm"%string
                 (keys [("address"%string, TStr "AA:01"); ("stand_cm"%string, TInt 110)])).
  { cbn. intros [H|[H|[]]]; discriminate H. }
  assert (Hd : NoDup (keys [("address"%string, TStr "AA:01"); ("stand_cm"%string, TInt 110)])).
  { cbn. constructor; [intros [H|[]]; discriminate H|].
    constructor; [intros []|constructor]. }
  split; [exact Hn|]. split; [exact Hd|].
  pose proof (get_config_fallbacks
                [("address"%string, TStr "AA:01"); ("stand_cm"%string, TInt 110)])
    as (_ & _ & _ & Hsit & _ & Hv).
  specialize (Hsit Hn).
  destruct (Hv Hd (TStr "AA:01")) as (Ha & _ & _).
  destruct (Hv Hd (TInt 110)) as (_ & _ & Hs).
  specialize (Ha (or_introl eq_refl)). specialize (Hs (or_intror (or_introl eq_refl))).
  destruct (_get_config _) as [[a b] c]. cbn [fst snd] in *. congruence.
Defined.

(** *** Choosing the desk in the setup *)

Lemma last_is_nth {A : Type} (l : list A) (d : A) :
  last l d = nth (List.length l - 1) l d.
Proof.
  induction l as [|x [|y l] IH]; try reflexivity.
  change (last (x :: y :: l) d) with (last (y :: l) d). rewrite IH.
  cbn [List.length]. rewrite !Nat.sub_succ, !Nat.sub_0_r. reflexivity.
Qed.

(** X18. When several desks are found, the number typed selects the desk at
    that place of the list, counted from 1; but 0 selects the last desk, and
    a negative number above minus the number of desks counts back from the
    end; any other number, or a line that is no number, is an invalid
    selection. With a single desk nothing is asked, and with none there is
    nothing to choose. *)
Theorem setup_select_by_number (addresses : list string) (n : Z) :
  (2 <= List.length addresses)%nat ->
  let len := Z.of_nat (List.length addresses) in
  (1 <= n <= len ->
   exists a, nth_error addresses (Z.to_nat (n - 1)) = Some a /\
             _setup_select addresses (Some n) = Selected a) /\
  (n = 0 -> _setup_select addresses (Some n) = Selected (last addresses EmptyString)) /\
  (- len < n <= 0 ->
   exists a, nth_error addresses (Z.to_nat (len + n - 1)) = Some a /\
             _setup_select addresses (Some n) = Selected a) /\
  (len < n \/ n <= - len -> _setup_select addresses (Some n) = InvalidSelection) /\
  _setup_select addresses None = InvalidSelection.
Proof.
  intros Hlen len.
  assert (Hsel : forall c, _setup_select addresses c
                 = match c with
                   | Some m => match list_index addresses (m - 1) with
                               | Some a => Selected a
                               | None => InvalidSelection
                               end
                   | None => InvalidSelection
                   end).
  { intros c. destruct addresses as [|a [|b l]]; cbn in Hlen; try lia. reflexivity. }
  assert (Hidx : forall j, 0 <= j < len ->
                 exists a, nth_error addresses (Z.to_nat j) = Some a).
  { intros j Hj. destruct (nth_error addresses (Z.to_nat j)) as [a|] eqn:E;
      [exists a; reflexivity|].
    apply nth_error_None in E. unfold len in Hj. lia. }
  assert (Hpos : 1 <= n <= len ->
                 exists a, nth_error addresses (Z.to_nat (n - 1)) = Some a /\
                           _setup_select addresses (Some n) = Selected a).
  { intros Hn. destruct (Hidx (n - 1) ltac:(lia)) as [a Ha]. exists a.
    split; [exact Ha|]. rewrite Hsel. unfold list_index. fold len.
    destruct (Z.ltb_spec (n - 1) 0); [lia|].
    replace ((0 <=? n - 1) && (n - 1 <? len)) with true
      by (symmetry; apply andb_true_iff; split; [apply Z.leb_le|apply Z.ltb_lt]; lia).
    now rewrite Ha. }
  assert (Hneg : - len < n <= 0 ->
                 exists a, nth_error addresses (Z.to_nat (len + n - 1)) = Some a /\
                           _setup_select addresses (Some n) = Selected a).
  { intros Hn. destruct (Hidx (len + n - 1) ltac:(lia)) as [a Ha]. exists a.
    split; [exact Ha|]. rewrite Hsel. unfold list_index. fold len.
    destruct (Z.ltb_spec (n - 1) 0); [|lia].
    replace (n - 1 + len) with (len + n - 1) by lia.
    replace ((0 <=? len + n - 1) && (len + n - 1 <? len)) with true
      by (symmetry; apply andb_true_iff; split; [apply Z.leb_le|apply Z.ltb_lt]; lia).
    now rewrite Ha. }
  split; [exact Hpos|]. split; [|split; [exact Hneg|split]].
  - intros ->. destruct (Hneg ltac:(lia)) as (a & Ha & Hs). rewrite Hs. f_equal.
    replace (Z.to_nat (len + 0 - 1)) with (List.length addresses - 1)%nat in Ha
      by (unfold len; lia).
    rewrite nth_error_nth' with (d := EmptyString) in Ha by lia.
    injection Ha as <-. symmetry. apply last_is_nth.
  - intros Hn. rewrite Hsel. unfold list_index. fold len.
    destruct (Z.ltb_spec (n - 1) 0).
    + replace ((0 <=? n - 1 + len) && (n - 1 + len <? len)) with false; [reflexivity|].
      symmetry. apply andb_false_iff. left. apply Z.leb_gt. lia.
    + replace ((0 <=? n - 1) && (n - 1 <? len)) with false; [reflexivity|].
      symmetry. apply andb_false_iff. right. apply Z.ltb_ge. lia.
  - apply Hsel.
Qed.

Lemma setup_select_by_number_witness :
  (2 <= List.length ["AA:01"; "BB:02"; "CC:03"]%string)%nat /\
  _setup_select ["AA:01"; "BB:02"; "CC:03"]%string (Some 2) = Selected "BB:02" /\
  _setup_select ["AA:01"; "BB:02"; "CC:03"]%string (Some 0) = Selected "CC:03" /\
  _setup_select ["AA:01"; "BB:02"; "CC:03"]%string (Some 4) = InvalidSelection.
Proof.
  assert (H : (2 <= List.length ["AA:01"; "BB:02"; "CC:03"]%string)%nat) by (cbn; lia).
  split; [exact H|]. split; [reflexivity|]. split; [|reflexivity].
  exact (proj1 (proj2 (setup_select_by_number ["AA:01"; "BB:02"; "CC:03"]%string 0 H))
           eq_refl).
Defined.
